(** * gpxParser: the GPX-to-record projections

    A shallow embedding of [src/gpxParser.js].  The module exports two entry
    points, [getTrackPointsData] and [GetMetadata].  Each reads a file, hands
    the text to a fresh XML tree parser and projects the parsed tree inside a
    [try] block whose [catch] rejects the promise.

    The parsed tree is a JavaScript value, so the embedding starts with the
    fragment of JavaScript the two functions rely on: property reads that
    throw on [undefined] and [null], truthiness, [parseFloat], [parseInt] and
    [Array.prototype.map]. *)

From Stdlib Require Import String Ascii List ZArith NArith Bool Lia.
From Stdlib Require DecimalString DecimalNat.
Import ListNotations.
Open Scope string_scope.

(** ** JavaScript values *)

(** The values the XML tree parser hands over: text, arrays and plain objects
    ([null] for an empty input); [undefined] comes from reading a property
    that is not there.  Text is a [string] whose characters stand for the code
    units of the same number. *)
#[warnings="-register-all"]
Inductive JsVal : Type :=
| JUndefined
| JNull
| JStr (s : string)
| JArr (items : list JsVal)
| JObj (props : list (string * JsVal)).

(** A property key: [v.name] and [v["name"]] read [Named "name"], [v[0]]
    reads [Indexed 0]. *)
Inductive Key : Type :=
| Named (name : string)
| Indexed (i : nat).

Definition keyName (k : Key) : string :=
  match k with
  | Named s => s
  | Indexed i => DecimalString.NilEmpty.string_of_uint (Nat.to_uint i)
  end.

Inductive TypeError : Type :=
| CannotReadProperty (ofNull : bool) (key : Key)
| NotAFunction (name : string)
| CannotConvertToPrimitive.

(** The outcome of evaluating an expression: a value or a thrown error. *)
Inductive Completion (A : Type) : Type :=
| Normal (a : A)
| Throw (e : TypeError).
Arguments Normal {A} a.
Arguments Throw {A} e.

Definition bind {A B} (c : Completion A) (k : A -> Completion B) : Completion B :=
  match c with
  | Normal a => k a
  | Throw e => Throw e
  end.

Declare Scope js_scope.
Delimit Scope js_scope with js.
Notation "x <- c ;; k" := (bind c (fun x => k))
  (at level 61, c at next level, right associativity) : js_scope.
Open Scope js_scope.

Fixpoint mapM {A B} (f : A -> Completion B) (l : list A) : Completion (list B) :=
  match l with
  | [] => Normal []
  | a :: rest =>
      b <- f a ;;
      bs <- mapM f rest ;;
      Normal (b :: bs)
  end.

Fixpoint lookup (k : string) (props : list (string * JsVal)) : option JsVal :=
  match props with
  | [] => None
  | (k', v) :: rest => if String.eqb k k' then Some v else lookup k rest
  end.

Fixpoint remove (k : string) (props : list (string * JsVal)) : list (string * JsVal) :=
  match props with
  | [] => []
  | (k', v) :: rest =>
      if String.eqb k k' then remove k rest else (k', v) :: remove k rest
  end.

Definition orUndefined (o : option JsVal) : JsVal :=
  match o with
  | Some v => v
  | None => JUndefined
  end.

(** [v[k]].  Reading from [undefined] or [null] throws.  Text has its
    characters under the indices, an array its items, an object its own
    properties.  None of the names the module reads ([gpx], [trk], [trkseg],
    [trkpt], [$], [lat], [lon], [ele], [time], [extensions], the two
    [gpxtpx:] names, [metadata], [name], [desc], [author]) is a property of
    a string, array or object prototype, so a named read that misses the own
    properties gives [undefined]. *)
Definition getProp (v : JsVal) (k : Key) : Completion JsVal :=
  match v with
  | JUndefined => Throw (CannotReadProperty false k)
  | JNull => Throw (CannotReadProperty true k)
  | JStr s =>
      Normal match k with
             | Indexed i =>
                 match String.get i s with
                 | Some c => JStr (String c EmptyString)
                 | None => JUndefined
                 end
             | Named _ => JUndefined
             end
  | JArr items =>
      Normal match k with
             | Indexed i => nth i items JUndefined
             | Named _ => JUndefined
             end
  | JObj props => Normal (orUndefined (lookup (keyName k) props))
  end.

(** [ToBoolean]: [undefined], [null] and the empty text are falsy; arrays and
    objects are truthy, the empty ones too. *)
Definition truthy (v : JsVal) : bool :=
  match v with
  | JUndefined | JNull => false
  | JStr s => negb (String.eqb s "")
  | JArr _ | JObj _ => true
  end.

(** [v.map(f)]: only an array has a [map] method; the callback runs over the
    items in order and the first throw ends the loop. *)
Definition callMap {B} (v : JsVal) (f : JsVal -> Completion B) : Completion (list B) :=
  match v with
  | JUndefined => Throw (CannotReadProperty false (Named "map"))
  | JNull => Throw (CannotReadProperty true (Named "map"))
  | JArr items => mapM f items
  | JStr _ | JObj _ => Throw (NotAFunction "map")
  end.

(** ** Numbers *)

(** The numbers [parseFloat] and [parseInt] produce: doubles.
    [Finite neg m e] is the double [(-1)^neg * m * 2^e], written with [e]
    at most 0 and, below 0, with [m] odd; [Finite true 0 0] is [-0]. *)
Inductive Number : Type :=
| NaN
| Infinity (negative : bool)
| Finite (negative : bool) (mantissa : N) (exponent : Z).

(** The integer nearest to [p / q], the even one of two that are equally
    near. *)
Definition roundHalfEven (p q : Z) : Z :=
  let d := (p / q)%Z in
  match (2 * (p mod q) ?= q)%Z with
  | Lt => d
  | Gt => (d + 1)%Z
  | Eq => if Z.even d then d else (d + 1)%Z
  end.

(** The exponent of the power of two at or below [p / q]. *)
Definition floorLog2 (p q : Z) : Z :=
  let l := (Z.log2 p - Z.log2 q)%Z in
  if (q * 2 ^ Z.max l 0 <=? p * 2 ^ Z.max (- l) 0)%Z then l else (l - 1)%Z.

(** [m * 2^e] in the form [Finite] holds it in. *)
Definition dyadic (negative : bool) (m e : Z) : Number :=
  if (0 <=? e)%Z then Finite negative (Z.to_N (m * 2 ^ e)) 0
  else
    let g := Z.gcd m (2 ^ (- e)) in
    Finite negative (Z.to_N (m / g)) (e + Z.log2 g).

(** The Number value of [(-1)^neg * m * 10^e10]: the double nearest to it,
    to even on a tie, with 53 bits down to the exponent -1074; [Infinity]
    from 2^1024 on. *)
Definition decimal (negative : bool) (m : N) (e10 : Z) : Number :=
  match m with
  | N0 => Finite negative 0 0
  | _ =>
      let p := (Z.of_N m * 10 ^ Z.max e10 0)%Z in
      let q := (10 ^ Z.max (- e10) 0)%Z in
      let e := Z.max (floorLog2 p q - 52) (-1074) in
      let r := roundHalfEven (p * 2 ^ Z.max (- e) 0) (q * 2 ^ Z.max e 0) in
      if (r =? 0)%Z then Finite negative 0 0
      else if (1024 <=? Z.log2 r + e)%Z then Infinity negative
      else dyadic negative r e
  end.

Definition isWhiteSpace (c : ascii) : bool :=
  let n := N_of_ascii c in
  ((9 <=? n) && (n <=? 13) || (n =? 32) || (n =? 160))%N.

Fixpoint trimStart (s : string) : string :=
  match s with
  | String c rest => if isWhiteSpace c then trimStart rest else s
  | EmptyString => s
  end.

Definition digitOf (radix : N) (c : ascii) : option N :=
  let n := N_of_ascii c in
  let d :=
    if ((48 <=? n) && (n <=? 57))%N then Some (n - 48)%N
    else if ((97 <=? n) && (n <=? 122))%N then Some (n - 87)%N
    else if ((65 <=? n) && (n <=? 90))%N then Some (n - 55)%N
    else None in
  match d with
  | Some v => if (v <? radix)%N then Some v else None
  | None => None
  end.

(** Reads the longest run of digits of the radix: the value accumulated, how
    many digits were read, and the rest of the text. *)
Fixpoint readDigits (radix : N) (s : string) (acc : N) (count : nat)
  : N * nat * string :=
  match s with
  | String c rest =>
      match digitOf radix c with
      | Some d => readDigits radix rest (acc * radix + d)%N (S count)
      | None => (acc, count, s)
      end
  | EmptyString => (acc, count, s)
  end.

Definition readSign (s : string) : bool * string :=
  match s with
  | String "-" rest => (true, rest)
  | String "+" rest => (false, rest)
  | _ => (false, s)
  end.

(** The exponent part [e], [E] with an optional sign and at least one digit;
    without digits there is no exponent part and the literal ends before it. *)
Definition readExponent (s : string) : Z :=
  match s with
  | String c rest =>
      if (Ascii.eqb c "e" || Ascii.eqb c "E")%bool then
        let (neg, digits) := readSign rest in
        let '(v, count, _) := readDigits 10 digits 0 0 in
        match count with
        | O => 0%Z
        | S _ => if neg then (- Z.of_N v)%Z else Z.of_N v
        end
      else 0%Z
  | EmptyString => 0%Z
  end.

(** The text after a decimal point, when the text begins with one. *)
Definition afterDot (s : string) : option string :=
  match s with
  | String c rest => if Ascii.eqb c "." then Some rest else None
  | EmptyString => None
  end.

(** [parseFloat] on text: leading white space is dropped and the longest
    prefix that is a decimal literal is read and rounded to a double;
    [NaN] when there is none. *)
Definition parseFloatText (input : string) : Number :=
  let (neg, body) := readSign (trimStart input) in
  if String.prefix "Infinity" body then Infinity neg
  else
    let '(whole, nWhole, afterWhole) := readDigits 10 body 0 0 in
    match afterDot afterWhole with
    | Some fraction =>
        let '(mant, nFrac, afterFrac) := readDigits 10 fraction whole 0 in
        match (nWhole + nFrac)%nat with
        | O => NaN
        | S _ => decimal neg mant (readExponent afterFrac - Z.of_nat nFrac)
        end
    | None =>
        match nWhole with
        | O => NaN
        | S _ => decimal neg whole (readExponent afterWhole)
        end
    end.

(** [parseInt] on text with no radix given: radix 10, or 16 after a [0x] or
    [0X] prefix; the integer the digits spell is rounded to a double;
    [NaN] when no digit follows. *)
Definition parseIntText (input : string) : Number :=
  let (neg, body) := readSign (trimStart input) in
  let (radix, digits) :=
    match body with
    | String "0" (String "x" rest) => (16%N, rest)
    | String "0" (String "X" rest) => (16%N, rest)
    | _ => (10%N, body)
    end in
  let '(v, count, _) := readDigits radix digits 0 0 in
  match count with
  | O => NaN
  | S _ => decimal neg v 0
  end.

Arguments decimal : simpl never.
Arguments parseFloatText : simpl never.
Arguments parseIntText : simpl never.

(** The two ways an object is turned into a primitive: [new Date(v)] asks
    with no preference, [parseFloat] and [parseInt] ask for text. *)
Inductive Hint : Type :=
| HintDefault
| HintString.

(** A field of an output record: [null], a number or text. *)
Inductive Field : Type :=
| FNull
| FNumber (n : Number)
| FText (s : string).

(** The object literal [{ lat, lon, heartRate, timestamp, elevation }]. *)
Record TrackPoint : Type := mkTrackPoint {
  lat : Field;
  lon : Field;
  heartRate : Field;
  timestamp : Field;
  elevation : Field
}.

(** The object literal [{ name, desc, author }]; the fields are the raw nodes
    of the parsed tree, [JNull] when the source puts [null]. *)
Record Metadata : Type := mkMetadata {
  name : JsVal;
  desc : JsVal;
  author : JsVal
}.

(** [a && b]: [b] is evaluated only when [a] is truthy. *)
Definition andAlso (a b : Completion JsVal) : Completion JsVal :=
  x <- a ;;
  if truthy x then b else Normal x.

(** [c ? a : b]. *)
Definition cond {A} (c : Completion JsVal) (a b : Completion A) : Completion A :=
  x <- c ;;
  if truthy x then a else b.

Definition wrapper : string := "gpxtpx:TrackPointExtension".
Definition hr : string := "gpxtpx:hr".

(** ** Documents

    How the properties below speak about a parsed document: the parser files the
    children of an element under their tag name, in an array in document
    order, and the attributes under [$]. *)

(** An element of the tree, as opposed to [undefined] and [null]. *)
Definition isNode (v : JsVal) : bool :=
  match v with
  | JUndefined | JNull => false
  | JStr _ | JArr _ | JObj _ => true
  end.

(** What a node has filed under a name; only an object has entries. *)
Definition entry (name : string) (node : JsVal) : option JsVal :=
  match node with
  | JObj props => lookup name props
  | _ => None
  end.

(** The child elements of a node with the given tag, in document order. *)
Definition children (tag : string) (node : JsVal) : list JsVal :=
  match entry tag node with
  | Some (JArr items) => items
  | _ => []
  end.

(** The first segment of the first track. *)
Definition firstSegment (result : JsVal) : option JsVal :=
  match entry "gpx" result with
  | Some gpx =>
      match children "trk" gpx with
      | track :: _ =>
          match children "trkseg" track with
          | segment :: _ => Some segment
          | [] => None
          end
      | [] => None
      end
  | None => None
  end.

(** The track-point list of the first segment of the first track, when the
    segment has one. *)
Definition trackPointList (result : JsVal) : option (list JsVal) :=
  match firstSegment result with
  | Some segment =>
      match entry "trkpt" segment with
      | Some (JArr points) => Some points
      | _ => None
      end
  | None => None
  end.

(** The track of the document, when it has one. *)
Definition trackEntry (result : JsVal) : option JsVal :=
  match entry "gpx" result with
  | Some gpx => entry "trk" gpx
  | None => None
  end.

Definition isText (v : JsVal) : bool :=
  match v with
  | JStr _ => true
  | _ => false
  end.

(** An optional child that holds text. *)
Definition optionalText (tag : string) (node : JsVal) : bool :=
  match entry tag node with
  | None => true
  | Some (JArr (first :: _)) => isText first
  | Some _ => false
  end.

(** The first [hr] element under the first wrapper under the first
    [extensions] child. *)
Definition heartRateElement (node : JsVal) : option JsVal :=
  match children "extensions" node with
  | extension :: _ =>
      match children wrapper extension with
      | first :: _ =>
          match children hr first with
          | rate :: _ => Some rate
          | [] => None
          end
      | [] => None
      end
  | [] => None
  end.

(** An optional [extensions] child with the nesting
    [extensions > TrackPointExtension > hr]. *)
Definition optionalHeartRate (node : JsVal) : bool :=
  match entry "extensions" node with
  | None => true
  | Some _ =>
      match heartRateElement node with
      | Some rate => isText rate
      | None => false
      end
  end.

(** An [extensions] child whose first element has no wrapper, or whose
    first wrapper has no [hr] element. *)
Definition missesHeartRate (node : JsVal) : bool :=
  match children "extensions" node with
  | extension :: _ =>
      match entry wrapper extension with
      | None => true
      | Some _ =>
          match children wrapper extension with
          | first :: _ =>
              match entry hr first with
              | None => true
              | Some _ => false
              end
          | [] => false
          end
      end
  | [] => false
  end.


(** An attribute that is text, or is not there. *)
Definition textOrAbsent (attribute : string) (attrs : JsVal) : bool :=
  match entry attribute attrs with
  | None => true
  | Some (JStr _) => true
  | Some _ => false
  end.

(** A track point with attributes, [lat] and [lon] among them or not, and
    with optional [ele], [time] and nested heart-rate children. *)
Definition attributedPoint (point : JsVal) : bool :=
  match entry "$" point with
  | Some attrs =>
      isNode attrs && textOrAbsent "lat" attrs && textOrAbsent "lon" attrs
      && optionalText "ele" point && optionalText "time" point
      && optionalHeartRate point
  | None => false
  end.


Definition isDigit (c : ascii) : bool :=
  match digitOf 10 c with
  | Some _ => true
  | None => false
  end.

(** Whether the text, after leading white space and a sign, begins a decimal
    literal: [Infinity], a digit, or a dot followed by a digit. *)
Definition startsNumber (text : string) : bool :=
  let (_, body) := readSign (trimStart text) in
  String.prefix "Infinity" body
  || match body with
     | String c rest =>
         isDigit c
         || (Ascii.eqb c "." &&
             match rest with
             | String d _ => isDigit d
             | EmptyString => false
             end)
     | EmptyString => false
     end.

(** Whether the text, after leading white space and a sign, and after a
    [0x] prefix if it has one, begins with a digit of its radix. *)
Definition startsInteger (text : string) : bool :=
  let (_, body) := readSign (trimStart text) in
  let (radix, digits) :=
    match body with
    | String "0" (String "x" rest) => (16%N, rest)
    | String "0" (String "X" rest) => (16%N, rest)
    | _ => (10%N, body)
    end in
  match digits with
  | String c _ =>
      match digitOf radix c with
      | Some _ => true
      | None => false
      end
  | EmptyString => false
  end.

(** The text does not go on with a decimal digit. *)
Definition endsDigits (tail : string) : Prop :=
  match tail with
  | String c _ => digitOf 10 c = None
  | EmptyString => True
  end.

(** What may follow an integer numeral without being read: nothing, or a
    character that is no digit. *)
Definition endsNumeral (tail : string) : bool :=
  match tail with
  | String c _ => negb (isDigit c)
  | EmptyString => true
  end.

(** The text begins with [x] or [X], which after a lone [0] makes a
    hexadecimal prefix. *)
Definition startsHexMark (tail : string) : bool :=
  match tail with
  | String c _ => (Ascii.eqb c "x" || Ascii.eqb c "X")%bool
  | EmptyString => false
  end.

(** What may follow a decimal numeral without being read: nothing, or a
    character that is no digit and no exponent mark. *)
Definition endsDecimal (tail : string) : bool :=
  match tail with
  | String c _ => negb (isDigit c || Ascii.eqb c "e" || Ascii.eqb c "E")
  | EmptyString => true
  end.

(** The text does not begin with a point. *)
Definition noPoint (tail : string) : bool :=
  match tail with
  | String c _ => negb (Ascii.eqb c ".")
  | EmptyString => true
  end.

(** The sign in front of a numeral. *)
Definition signText (negative : bool) : string :=
  if negative then "-" else "".

(** A sequence of decimal digits as text, and the decimal numeral of a
    natural number. *)
Definition digitsText (d : Decimal.uint) : string :=
  DecimalString.NilEmpty.string_of_uint d.

Definition decimalText (n : nat) : string := digitsText (Nat.to_uint n).

(** ** Own keys

    [Object.keys] lists the own properties: the array indices in ascending
    order, then the other names in the order of creation. *)

(** The array index a key stands for: the canonical numeral of a number
    below 2^32 - 1. *)
Definition arrayIndex (k : string) : option N :=
  match k with
  | EmptyString => None
  | String c rest =>
      let '(v, _, tail) := readDigits 10 k 0 0 in
      if negb (String.eqb tail "") then None
      else if (Ascii.eqb c "0" && negb (String.eqb rest ""))%bool then None
      else if (v <? 4294967295)%N then Some v
      else None
  end.

(** The keys in order, each once; a key bound twice in the list counts at
    its first binding, the one [lookup] finds. *)
Fixpoint distinctKeys (props : list (string * JsVal)) (seen : list string)
  : list string :=
  match props with
  | [] => []
  | (k, _) :: rest =>
      if existsb (String.eqb k) seen then distinctKeys rest seen
      else k :: distinctKeys rest (k :: seen)
  end.

Fixpoint insertIndex (i : N) (k : string) (sorted : list (N * string))
  : list (N * string) :=
  match sorted with
  | [] => [(i, k)]
  | (j, k') :: rest =>
      if (i <? j)%N then (i, k) :: sorted else (j, k') :: insertIndex i k rest
  end.

Definition ownKeys (props : list (string * JsVal)) : list string :=
  let keys := distinctKeys props [] in
  let indexed :=
    fold_right (fun k acc =>
                  match arrayIndex k with
                  | Some i => insertIndex i k acc
                  | None => acc
                  end) [] keys in
  let named :=
    filter (fun k => match arrayIndex k with
                     | Some _ => false
                     | None => true
                     end) keys in
  (map snd indexed ++ named)%list.

(** [Object.keys(obj)]; [None] stands for the [TypeError] on [undefined]
    and [null].  Text and arrays have their indices as keys. *)
Definition objectKeys (obj : JsVal) : option (list Key) :=
  match obj with
  | JUndefined | JNull => None
  | JStr s => Some (map Indexed (seq 0 (String.length s)))
  | JArr items => Some (map Indexed (seq 0 (length items)))
  | JObj props => Some (map Named (ownKeys props))
  end.

Definition newline : string := String "010"%char EmptyString.

(** What [showProps] throws: the error of [Object.keys], or one of a
    conversion to text. *)
Inductive ShowError : Type :=
| CannotConvertToObject
| Thrown (e : TypeError).

Definition joinLines (lines : list string) : string :=
  fold_right append "" lines.

(** The text of a primitive in a template: [undefined], [null] and text. *)
Definition primitiveText (v : JsVal) : option string :=
  match v with
  | JUndefined => Some "undefined"
  | JNull => Some "null"
  | JStr s => Some s
  | JArr _ | JObj _ => None
  end.

(** The point has attributes, and the attribute is missing or is text
    that does not begin a number. *)
Definition coordinateUnreadable (attribute : string) (point : JsVal) : bool :=
  match entry "$" point with
  | Some attrs =>
      match entry attribute attrs with
      | None => true
      | Some (JStr text) => negb (startsNumber text)
      | Some _ => false
      end
  | None => false
  end.

(** The first child with the tag, [null] when there is none. *)
Definition firstChild (tag : string) (node : JsVal) : JsVal :=
  match children tag node with
  | first :: _ => first
  | [] => JNull
  end.

(** The node has no entry under the tag, or an array with an item. *)
Definition listedOrAbsent (tag : string) (node : JsVal) : bool :=
  match entry tag node with
  | None => true
  | Some (JArr (_ :: _)) => true
  | Some _ => false
  end.

(** ** Sample collaborators and documents *)

Definition samplePoint : JsVal :=
  JObj [("$", JObj [("lat", JStr "45.0"); ("lon", JStr "7.5")]);
        ("ele", JArr [JStr "123.4"]);
        ("time", JArr [JStr "2024-01-01T10:00:00Z"]);
        ("extensions",
         JArr [JObj [(wrapper, JArr [JObj [(hr, JArr [JStr "150"])]])]])].

(** [<trkpt lat='46.0' lon='north'/>]. *)
Definition barePoint : JsVal :=
  JObj [("$", JObj [("lat", JStr "46.0"); ("lon", JStr "north")])].

(** [<trkpt lon='7.5'/>]: attributes, but no [lat]. *)
Definition halfPoint : JsVal :=
  JObj [("$", JObj [("lon", JStr "7.5")])].

(** [<trkpt><ele>5</ele></trkpt>]: no attribute, so no [$] entry. *)
Definition unattributedPoint : JsVal :=
  JObj [("ele", JArr [JStr "5"])].

(** A point whose [extensions] hold something else than the wrapper. *)
Definition powerPoint : JsVal :=
  JObj [("$", JObj [("lat", JStr "45.0"); ("lon", JStr "7.5")]);
        ("extensions", JArr [JObj [("power", JArr [JStr "200"])]])].

(** A point whose [ele], [time] and [gpxtpx:hr] elements are empty. *)
Definition emptyTextProps : list (string * JsVal) :=
  [("$", JObj [("lat", JStr "45.0"); ("lon", JStr "7.5")]);
   ("ele", JArr [JStr ""]);
   ("time", JArr [JStr ""]);
   ("extensions",
    JArr [JObj [(wrapper, JArr [JObj [(hr, JArr [JStr ""])]])]])].

Definition emptyTextPoint : JsVal := JObj emptyTextProps.

Definition documentOf (segment : JsVal) (metadata : list (string * JsVal)) : JsVal :=
  JObj [("gpx", JObj (metadata ++ [("trk", JArr [JObj [("trkseg", JArr [segment])]])]))].

Definition segmentOf (points : list JsVal) : JsVal :=
  JObj [("trkpt", JArr points)].

Definition sampleDocument : JsVal :=
  documentOf (segmentOf [samplePoint; barePoint])
             [("metadata", JArr [JObj [("name", JArr [JStr "Morning run"])]])].

(** [<gpx><trk><trkseg/></trk></gpx>]: the empty segment is the empty text
    and has no [trkpt] entry. *)
Definition emptySegmentDocument : JsVal := documentOf (JStr "") [].

(** A segment with a track-point list that has no entry. *)
Definition emptyListDocument : JsVal := documentOf (segmentOf []) [].

(** [<gpx/>]: no track and no metadata. *)
Definition bareDocument : JsVal := JObj [("gpx", JStr "")].

(** The same with a metadata block. *)
Definition namedDocument : JsVal :=
  JObj [("gpx", JObj [("metadata", JArr [JObj [("name", JArr [JStr "Plan"])]])])].

Definition unattributedDocument : JsVal :=
  documentOf (segmentOf [samplePoint; unattributedPoint]) [].

Definition powerDocument : JsVal :=
  documentOf (segmentOf [samplePoint; powerPoint; barePoint]) [].

Definition emptyTextDocument : JsVal :=
  documentOf (segmentOf [emptyTextPoint]) [].

(** Two points with attributes: one without [lat], one whose [lon] is a
    word. *)
Definition unreadDocument : JsVal :=
  documentOf (segmentOf [halfPoint; barePoint]) [].

(** A document that is not GPX: [<kml/>]. *)
Definition foreignDocument : JsVal := JObj [("kml", JStr "")].

(** The sample files are named after their parsed trees, and their text is
    their name between angle brackets. *)
Definition sampleTrees : list (string * JsVal) :=
  [("track", sampleDocument);
   ("empty-segment", emptySegmentDocument);
   ("empty-list", emptyListDocument);
   ("bare", bareDocument);
   ("named", namedDocument);
   ("foreign", foreignDocument);
   ("unattributed", unattributedDocument);
   ("power", powerDocument);
   ("empty-text", emptyTextDocument);
   ("unread", unreadDocument)].

Definition textOf (name : string) : string := "<" ++ name ++ ">".

(** A loader that has the sample files and a file that is not XML. *)
Definition sampleFiles (path : string) : string + string :=
  if String.eqb path "broken" then inr "<gpx><trk>"
  else
    match lookup path sampleTrees with
    | Some _ => inr (textOf path)
    | None => inl "ENOENT"
    end.

(** The same loader with every file but [track] out of reach. *)
Definition otherFiles (path : string) : string + string :=
  if String.eqb path "track" then sampleFiles path else inl "EACCES".

Fixpoint parseIn (trees : list (string * JsVal)) (text : string) : string + JsVal :=
  match trees with
  | [] => inl "Unclosed root tag"
  | (name, tree) :: rest =>
      if String.eqb text (textOf name) then inr tree else parseIn rest text
  end.

(** A parser that knows the text of the sample files. *)
Definition sampleParse (text : string) : string + JsVal :=
  parseIn sampleTrees text.

(** A sample conversion: a plain object reads [[object Object]] unless an
    entry of its own shadows [toString]. *)
Definition sampleToPrimitive (h : Hint) (v : JsVal) : Completion string :=
  match v with
  | JObj props =>
      match lookup "toString" props with
      | Some _ => Throw CannotConvertToPrimitive
      | None => Normal "[object Object]"
      end
  | _ => Throw CannotConvertToPrimitive
  end.

(** A process one hour east of Greenwich with a US locale. *)
Definition sampleLocale (text : string) : string :=
  if String.eqb text "2024-01-01T10:00:00Z" then "1/1/2024, 11:00:00 AM"
  else "Invalid Date".

(** A parser object that reads one text and fails on every later one, as
    a parser does that is not reset; its state counts the texts it got. *)
Definition onceParse (used : nat) (text : string) : (string + JsVal) * nat :=
  (match used with
   | O => sampleParse text
   | S _ => inl "parser not reset"
   end, S used).

(** What the two points of [sampleDocument] come out as. *)
Definition sampleRecords : list TrackPoint :=
  [mkTrackPoint (FNumber (Finite false 45 0)) (FNumber (Finite false 15 (-1)))
                (FNumber (Finite false 150 0)) (FText "1/1/2024, 11:00:00 AM")
                (FNumber (decimal false 1234 (-1)));
   mkTrackPoint (FNumber (Finite false 46 0)) (FNumber NaN) FNull FNull FNull].

(** [samplePoint] with children the callback does not read. *)
Definition annotatedProps : list (string * JsVal) :=
  [("name", JArr [JStr "Summit"]);
   ("$", JObj [("lat", JStr "45.0"); ("lon", JStr "7.5")]);
   ("sat", JArr [JStr "9"]);
   ("ele", JArr [JStr "123.4"]);
   ("time", JArr [JStr "2024-01-01T10:00:00Z"]);
   ("extensions",
    JArr [JObj [(wrapper, JArr [JObj [(hr, JArr [JStr "150"])]])]]);
   ("fix", JArr [JStr "3d"])].

Definition samplePointProps : list (string * JsVal) :=
  [("$", JObj [("lat", JStr "45.0"); ("lon", JStr "7.5")]);
   ("ele", JArr [JStr "123.4"]);
   ("time", JArr [JStr "2024-01-01T10:00:00Z"]);
   ("extensions",
    JArr [JObj [(wrapper, JArr [JObj [(hr, JArr [JStr "150"])]])]])].

(** Two tracks, the first with two segments; its first segment is that of
    [sampleDocument], the other segments hold points that throw. *)
Definition twoTrackDocument : JsVal :=
  JObj [("gpx",
         JObj [("trk",
                JArr [JObj [("trkseg", JArr [segmentOf [samplePoint; barePoint];
                                             segmentOf [powerPoint]])];
                      JObj [("trkseg", JArr [segmentOf [unattributedPoint]])]])])].

(** A point that throws after one that completes and before another that
    throws on another read. *)
Definition mixedDocument : JsVal :=
  documentOf (segmentOf [samplePoint; powerPoint; unattributedPoint]) [].

(** A metadata block with two names, an empty description and an author
    with a nested name, followed by a second block. *)
Definition authorNode : JsVal := JObj [("name", JArr [JStr "Ada"])].

Definition richMetadata : JsVal :=
  JObj [("name", JArr [JStr "Morning run"; JStr "Second name"]);
        ("desc", JArr [JStr ""]);
        ("author", JArr [authorNode]);
        ("keywords", JArr [JStr "run"])].

Definition richDocument : JsVal :=
  JObj [("gpx", JObj [("metadata", JArr [richMetadata; JStr ""])])].

(** A first track without segments before a track with one. *)
Definition segmentlessTrack : JsVal := JObj [("name", JArr [JStr "Planned"])].

Definition segmentlessDocument : JsVal :=
  JObj [("gpx",
         JObj [("trk",
                JArr [segmentlessTrack;
                      JObj [("trkseg", JArr [segmentOf [samplePoint]])]])])].

(** A point whose elevation and heart rate are words. *)
Definition wordyPoint : JsVal :=
  JObj [("$", JObj [("lat", JStr "45.0"); ("lon", JStr "7.5")]);
        ("ele", JArr [JStr "n/a"]);
        ("extensions",
         JArr [JObj [(wrapper, JArr [JObj [(hr, JArr [JStr "resting"])]])]])].

(** A point south of the equator, with a unit after the elevation and a
    fraction in the heart rate. *)
Definition southPoint : JsVal :=
  JObj [("$", JObj [("lat", JStr "-33.86"); ("lon", JStr "151.2")]);
        ("ele", JArr [JStr "1200m"]);
        ("extensions",
         JArr [JObj [(wrapper, JArr [JObj [(hr, JArr [JStr "72.9"])]])]])].

(** An object to print, with a nested node among its values, and one with
    primitive values only. *)
Definition blockProps : list (string * JsVal) :=
  [("name", JStr "Morning run"); ("desc", JNull); ("author", authorNode)].

Definition plainProps : list (string * JsVal) :=
  [("name", JStr "Morning run"); ("desc", JNull); ("link", JUndefined)].

Definition extraTrees : list (string * JsVal) :=
  [("track", sampleDocument);
   ("two-tracks", twoTrackDocument);
   ("mixed", mixedDocument);
   ("rich", richDocument);
   ("segmentless", segmentlessDocument);
   ("foreign", foreignDocument)].

(** A loader and a parser for these documents, and for an empty file that
    the parser answers with [null]. *)
Definition extraFiles (path : string) : string + string :=
  if String.eqb path "blank" then inr ""
  else
    match lookup path extraTrees with
    | Some _ => inr (textOf path)
    | None => inl "ENOENT"
    end.

Definition extraParse (text : string) : string + JsVal :=
  if String.eqb text "" then inr JNull else parseIn extraTrees text.

(** ** The module *)

Section GpxParser.

(** The errors of the two collaborators, passed on as they come. *)
Variables FsError XmlError : Type.

(** [new xml2js.Parser().parseString]: a fresh parser on every call, so the
    outcome is a function of the text. *)
Variable parseString : string -> XmlError + JsVal.

(** How an array or object of the parsed tree is turned into text; it
    depends on the prototype the parser gave the object. *)
Variable toPrimitive : Hint -> JsVal -> Completion string.

(** [new Date(text).toLocaleString()] in the time zone and locale of the
    process. *)
Variable localeStringOfText : string -> string.

(** The parser as the object it is: the state of a parser just made, and
    what [parseString] hands to its callback and leaves the parser in. *)
Variable ParserState : Type.
Variable freshParser : ParserState.
Variable parseWith : ParserState -> string -> (XmlError + JsVal) * ParserState.

Definition toString (v : JsVal) : Completion string :=
  match v with
  | JUndefined => Normal "undefined"
  | JNull => Normal "null"
  | JStr s => Normal s
  | JArr _ | JObj _ => toPrimitive HintString v
  end.

Definition parseFloat (v : JsVal) : Completion Number :=
  s <- toString v ;;
  Normal (parseFloatText s).

Definition parseInt (v : JsVal) : Completion Number :=
  s <- toString v ;;
  Normal (parseIntText s).

(** [new Date(v).toLocaleString()]. *)
Definition dateToLocaleString (v : JsVal) : Completion string :=
  match v with
  | JUndefined => Normal "Invalid Date"
  | JNull => Normal (localeStringOfText "1970-01-01T00:00:00.000Z")
  | JStr s => Normal (localeStringOfText s)
  | JArr _ | JObj _ =>
      s <- toPrimitive HintDefault v ;;
      Normal (localeStringOfText s)
  end.

(** *** getTrackPointsData *)

(** [parseFloat(point.$.lat)] and [parseFloat(point.$.lon)]. *)
Definition coordinateOf (attribute : string) (point : JsVal) : Completion Field :=
  attrs <- getProp point (Named "$") ;;
  text <- getProp attrs (Named attribute) ;;
  n <- parseFloat text ;;
  Normal (FNumber n).

(** [point.ele[0]], [point.time[0]]. *)
Definition firstOf (child : string) (point : JsVal) : Completion JsVal :=
  items <- getProp point (Named child) ;;
  getProp items (Indexed 0).

Definition elevationOf (point : JsVal) : Completion Field :=
  guard <- andAlso (getProp point (Named "ele")) (firstOf "ele" point) ;;
  if truthy guard then
    text <- firstOf "ele" point ;;
    n <- parseFloat text ;;
    Normal (FNumber n)
  else Normal FNull.

Definition timestampOf (point : JsVal) : Completion Field :=
  guard <- andAlso (getProp point (Named "time")) (firstOf "time" point) ;;
  if truthy guard then
    text <- firstOf "time" point ;;
    s <- dateToLocaleString text ;;
    Normal (FText s)
  else Normal FNull.

(** [point.extensions[0]["gpxtpx:TrackPointExtension"][0]["gpxtpx:hr"][0]]. *)
Definition heartRateNode (point : JsVal) : Completion JsVal :=
  extensions <- getProp point (Named "extensions") ;;
  extension <- getProp extensions (Indexed 0) ;;
  wrappers <- getProp extension (Named wrapper) ;;
  first <- getProp wrappers (Indexed 0) ;;
  rates <- getProp first (Named hr) ;;
  getProp rates (Indexed 0).

Definition heartRateOf (point : JsVal) : Completion Field :=
  guard <- andAlso (getProp point (Named "extensions")) (heartRateNode point) ;;
  if truthy guard then
    text <- heartRateNode point ;;
    n <- parseInt text ;;
    Normal (FNumber n)
  else Normal FNull.

(** The callback of [trackPoints.map]. *)
Definition trackPointOf (point : JsVal) : Completion TrackPoint :=
  lat <- coordinateOf "lat" point ;;
  lon <- coordinateOf "lon" point ;;
  elevation <- elevationOf point ;;
  timestamp <- timestampOf point ;;
  heartRate <- heartRateOf point ;;
  Normal (mkTrackPoint lat lon heartRate timestamp elevation).

(** The body of the [try] block. *)
Definition tryTrackPoints (result : JsVal) : Completion (list TrackPoint) :=
  gpx <- getProp result (Named "gpx") ;;
  trk <- getProp gpx (Named "trk") ;;
  track <- getProp trk (Indexed 0) ;;
  trkseg <- getProp track (Named "trkseg") ;;
  segment <- getProp trkseg (Indexed 0) ;;
  trackPoints <- getProp segment (Named "trkpt") ;;
  callMap trackPoints trackPointOf.

(** *** GetMetadata *)

(** [metadata.name ? metadata.name[0] : null]. *)
Definition firstOrNull (child : string) (metadata : JsVal) : Completion JsVal :=
  cond (getProp metadata (Named child)) (firstOf child metadata) (Normal JNull).

(** [result.gpx.metadata]. *)
Definition gpxMetadata (result : JsVal) : Completion JsVal :=
  gpx <- getProp result (Named "gpx") ;;
  getProp gpx (Named "metadata").

Definition tryMetadata (result : JsVal) : Completion Metadata :=
  metadata <- cond (gpxMetadata result)
                   (items <- gpxMetadata result ;;
                    getProp items (Indexed 0))
                   (Normal (JObj [])) ;;
  name <- firstOrNull "name" metadata ;;
  desc <- firstOrNull "desc" metadata ;;
  author <- firstOrNull "author" metadata ;;
  Normal (mkMetadata name desc author).

(** *** The promises *)

Inductive Failure : Type :=
| DocumentUnreadable (err : FsError)
| MalformedDocument (err : XmlError)
| StructureMismatch (error : TypeError).

(** A settled promise. *)
Inductive Promise (A : Type) : Type :=
| Resolved (value : A)
| Rejected (reason : Failure).
Arguments Resolved {A} value.
Arguments Rejected {A} reason.

(** The files as the loader sees them, and calls as transitions on them. *)
Definition FileSystem : Type := string -> FsError + string.
Definition IO (A : Type) : Type := FileSystem -> A * FileSystem.

(** [fs.readFile(path, "utf8", callback)]. *)
Definition readFile (path : string) : IO (FsError + string) :=
  fun fs => (fs path, fs).

(** [try { ... resolve(value) } catch (error) { reject(error) }]. *)
Definition tryCatch {A} (body : Completion A) : Promise A :=
  match body with
  | Normal value => Resolved value
  | Throw error => Rejected (StructureMismatch error)
  end.

Definition getTrackPointsData (path : string) : IO (Promise (list TrackPoint)) :=
  fun fs =>
    let (read, fs') := readFile path fs in
    match read with
    | inl err => (Rejected (DocumentUnreadable err), fs')
    | inr data =>
        match parseString data with
        | inl err => (Rejected (MalformedDocument err), fs')
        | inr result => (tryCatch (tryTrackPoints result), fs')
        end
    end.

Definition GetMetadata (path : string) : IO (Promise Metadata) :=
  fun fs =>
    let (read, fs') := readFile path fs in
    match read with
    | inl err => (Rejected (DocumentUnreadable err), fs')
    | inr data =>
        match parseString data with
        | inl err => (Rejected (MalformedDocument err), fs')
        | inr result => (tryCatch (tryMetadata result), fs')
        end
    end.

(** The shape the two entry points have in common, with the body of the
    [try] block left open. *)
Definition settle {A} (body : JsVal -> Completion A) (path : string) : IO (Promise A) :=
  fun fs =>
    let (read, fs') := readFile path fs in
    match read with
    | inl err => (Rejected (DocumentUnreadable err), fs')
    | inr data =>
        match parseString data with
        | inl err => (Rejected (MalformedDocument err), fs')
        | inr result => (tryCatch (body result), fs')
        end
    end.

(** *** The entry points among the objects they make

    The same two functions with the parser objects in view: what is there
    when a call ends is there when the next begins. *)

(** The files and the parser objects made so far, each known by its place
    in the list. *)
Record World : Type := mkWorld {
  files : FileSystem;
  parsers : list ParserState
}.

Fixpoint setNth {A} (n : nat) (a : A) (l : list A) : list A :=
  match l, n with
  | [], _ => []
  | _ :: rest, O => a :: rest
  | x :: rest, S n' => x :: setNth n' a rest
  end.

(** [new xml2js.Parser()]. *)
Definition newParser (w : World) : nat * World :=
  (length (parsers w), mkWorld (files w) (parsers w ++ [freshParser])).

(** [parser.parseString(data, callback)]: what the callback gets, and the
    parser left in the state the text brought it to. *)
Definition parseStringOf (parser : nat) (data : string) (w : World)
  : (XmlError + JsVal) * World :=
  let (outcome, after) := parseWith (nth parser (parsers w) freshParser) data in
  (outcome, mkWorld (files w) (setNth parser after (parsers w))).

Definition getTrackPointsDataIn (path : string) (w : World)
  : Promise (list TrackPoint) * World :=
  match files w path with
  | inl err => (Rejected (DocumentUnreadable err), w)
  | inr data =>
      let (parser, w1) := newParser w in
      let (parsed, w2) := parseStringOf parser data w1 in
      match parsed with
      | inl err => (Rejected (MalformedDocument err), w2)
      | inr result => (tryCatch (tryTrackPoints result), w2)
      end
  end.

Definition GetMetadataIn (path : string) (w : World) : Promise Metadata * World :=
  match files w path with
  | inl err => (Rejected (DocumentUnreadable err), w)
  | inr data =>
      let (parser, w1) := newParser w in
      let (parsed, w2) := parseStringOf parser data w1 in
      match parsed with
      | inl err => (Rejected (MalformedDocument err), w2)
      | inr result => (tryCatch (tryMetadata result), w2)
      end
  end.

(** *** showProps *)

(** The template [`${objName}.${i} = ${obj[i]}\n`]. *)
Definition lineOf (obj objName : JsVal) (i : Key) : Completion string :=
  name <- toString objName ;;
  value <- getProp obj i ;;
  text <- toString value ;;
  Normal (name ++ "." ++ keyName i ++ " = " ++ text ++ newline).

(** [keys.forEach((i) => { result += ... })]. *)
Fixpoint forEachKey (obj objName : JsVal) (keys : list Key) (result : string)
  : Completion string :=
  match keys with
  | [] => Normal result
  | i :: rest =>
      line <- lineOf obj objName i ;;
      forEachKey obj objName rest (result ++ line)
  end.

Definition showProps (obj objName : JsVal) : ShowError + string :=
  match objectKeys obj with
  | None => inl CannotConvertToObject
  | Some keys =>
      match forEachKey obj objName keys "" with
      | Normal result => inr result
      | Throw e => inl (Thrown e)
      end
  end.

(** The line of the template for a property given with its value. *)
Definition propertyLine (objName : JsVal) (kv : string * JsVal) : Completion string :=
  name <- toString objName ;;
  text <- toString (snd kv) ;;
  Normal (name ++ "." ++ fst kv ++ " = " ++ text ++ newline).

(** The object literal a [Metadata] record stands for. *)
Definition metadataObject (m : Metadata) : JsVal :=
  JObj [("name", name m); ("desc", desc m); ("author", author m)].

(** A block of the callback completes with the value, every record the
    callback builds from the point carries it in the field, and for a
    point with attributes and optional children of the consumed shape the
    callback does build a record, with the value in the field. *)
Definition fieldIs (block : JsVal -> Completion Field) (field : TrackPoint -> Field)
           (point : JsVal) (value : Field) : Prop :=
  block point = Normal value /\
  (forall record, trackPointOf point = Normal record -> field record = value) /\
  (attributedPoint point = true ->
   exists record, trackPointOf point = Normal record /\ field record = value).

(** The text gives the number wherever the callback reads a decimal: as
    an attribute of the point, and as its first [ele] child. *)
Definition textGives (point : JsVal) (text : string) (value : Number) : Prop :=
  (forall (attrs : JsVal) (attribute : string),
      entry "$" point = Some attrs ->
      entry attribute attrs = Some (JStr text) ->
      coordinateOf attribute point = Normal (FNumber value)) /\
  (forall rest : list JsVal,
      children "ele" point = JStr text :: rest ->
      fieldIs elevationOf elevation point (FNumber value)).

(** ** Properties *)

Lemma getProp_named (node : JsVal) (k : string) :
  isNode node = true ->
  getProp node (Named k) = Normal (orUndefined (entry k node)).
Proof. destruct node; simpl; intros H; try discriminate; reflexivity. Qed.

Lemma entry_isNode (tag : string) (node v : JsVal) :
  entry tag node = Some v -> isNode node = true.
Proof. destruct node; simpl; try discriminate; reflexivity. Qed.

Lemma firstOf_absent (tag : string) (node : JsVal) :
  entry tag node = None -> exists e, firstOf tag node = Throw e.
Proof.
  unfold firstOf.
  destruct node; simpl; intros H; try (eexists; reflexivity).
  rewrite H. eexists; reflexivity.
Qed.

Lemma firstOf_then {A} (tag : string) (node : JsVal) (k : JsVal -> Completion A) :
  (items <- getProp node (Named tag) ;;
   first <- getProp items (Indexed 0) ;;
   k first)
  = (first <- firstOf tag node ;; k first).
Proof. unfold firstOf. destruct (getProp node (Named tag)); reflexivity. Qed.

Lemma lookup_remove_same (k : string) (props : list (string * JsVal)) :
  lookup k (remove k props) = None.
Proof.
  induction props as [| [k' v] rest IH]; simpl; [reflexivity |].
  destruct (String.eqb k k') eqn:E; simpl; [assumption |].
  rewrite E. assumption.
Qed.

Lemma lookup_remove_other (k k' : string) (props : list (string * JsVal)) :
  k <> k' -> lookup k (remove k' props) = lookup k props.
Proof.
  intros Hne.
  induction props as [| [k0 v] rest IH]; simpl; [reflexivity |].
  destruct (String.eqb k' k0) eqn:E'.
  - apply String.eqb_eq in E'. subst k0.
    destruct (String.eqb k k') eqn:E; [| assumption].
    apply String.eqb_eq in E. contradiction.
  - simpl. destruct (String.eqb k k0); [reflexivity | assumption].
Qed.

Lemma mapM_pointwise {A B} (f : A -> Completion B) (l : list A) (out : list B) :
  mapM f l = Normal out -> Forall2 (fun a b => f a = Normal b) l out.
Proof.
  revert out.
  induction l as [| a rest IH]; simpl; intros out H.
  - injection H as <-. constructor.
  - destruct (f a) as [b |] eqn:Fa; simpl in H; [| discriminate].
    destruct (mapM f rest) as [bs |] eqn:Frest; simpl in H; [| discriminate].
    injection H as <-. constructor; [assumption | apply IH; reflexivity].
Qed.

Lemma mapM_total {A B} (f : A -> Completion B) (l : list A) :
  Forall (fun a => exists b, f a = Normal b) l ->
  exists out, mapM f l = Normal out.
Proof.
  induction 1 as [| a rest [b Hb] _ [bs Hbs]]; simpl.
  - eexists; reflexivity.
  - rewrite Hb, Hbs. simpl. eexists; reflexivity.
Qed.

Lemma mapM_throws {A B} (f : A -> Completion B) (l : list A) (a : A) :
  In a l -> (exists e, f a = Throw e) -> exists e, mapM f l = Throw e.
Proof.
  intros Hin [e He].
  induction l as [| x rest IH]; simpl; [contradiction |].
  destruct Hin as [-> | Hin].
  - rewrite He. eexists; reflexivity.
  - destruct (f x); simpl; [| eexists; reflexivity].
    destruct (IH Hin) as [e' ->]. eexists; reflexivity.
Qed.

(** With the first segment in place the [try] body reads its [trkpt]
    and maps over it. *)
Lemma tryTrackPoints_segment (result segment : JsVal) :
  firstSegment result = Some segment ->
  tryTrackPoints result
  = (trackPoints <- getProp segment (Named "trkpt") ;;
     callMap trackPoints trackPointOf).
Proof.
  unfold firstSegment, children, tryTrackPoints.
  destruct result as [| | | | props]; simpl; try discriminate.
  destruct (lookup "gpx" props) as [gpx |]; simpl; [| discriminate].
  destruct gpx as [| | | | gprops]; simpl; try discriminate.
  destruct (lookup "trk" gprops) as [trk |]; simpl; [| discriminate].
  destruct trk as [| | | tracks |]; simpl; try discriminate.
  destruct tracks as [| track tracks]; simpl; [discriminate |].
  destruct track as [| | | | tprops]; simpl; try discriminate.
  destruct (lookup "trkseg" tprops) as [trkseg |]; simpl; [| discriminate].
  destruct trkseg as [| | | segments |]; simpl; try discriminate.
  destruct segments as [| s segments]; simpl; [discriminate |].
  intros H. injection H as <-. reflexivity.
Qed.

Lemma tryTrackPoints_list (result : JsVal) (points : list JsVal) :
  trackPointList result = Some points ->
  tryTrackPoints result = mapM trackPointOf points.
Proof.
  unfold trackPointList.
  destruct (firstSegment result) as [segment |] eqn:Hseg; [| discriminate].
  rewrite (tryTrackPoints_segment _ _ Hseg).
  destruct (entry "trkpt" segment) as [v |] eqn:Hentry; [| discriminate].
  destruct v; try discriminate.
  intros H. injection H as <-.
  rewrite (getProp_named _ _ (entry_isNode _ _ _ Hentry)), Hentry. reflexivity.
Qed.

Lemma tryTrackPoints_records (result : JsVal) (records : list TrackPoint) :
  tryTrackPoints result = Normal records ->
  exists points,
    Forall2 (fun point record => trackPointOf point = Normal record) points records.
Proof.
  unfold tryTrackPoints.
  destruct (getProp result (Named "gpx")) as [gpx |]; simpl; [| discriminate].
  destruct (getProp gpx (Named "trk")) as [trk |]; simpl; [| discriminate].
  destruct (getProp trk (Indexed 0)) as [track |]; simpl; [| discriminate].
  destruct (getProp track (Named "trkseg")) as [trkseg |]; simpl; [| discriminate].
  destruct (getProp trkseg (Indexed 0)) as [segment |]; simpl; [| discriminate].
  destruct (getProp segment (Named "trkpt")) as [trackPoints |]; simpl;
    [| discriminate].
  destruct trackPoints as [| | | points |]; simpl; try discriminate.
  intros H. exists points. apply mapM_pointwise. assumption.
Qed.

Lemma getTrackPointsData_settle : getTrackPointsData = settle tryTrackPoints.
Proof. reflexivity. Qed.

Lemma GetMetadata_settle : GetMetadata = settle tryMetadata.
Proof. reflexivity. Qed.

Lemma settle_resolved {A} (body : JsVal -> Completion A) (path : string)
      (fs : FileSystem) (value : A) :
  fst (settle body path fs) = Resolved value ->
  exists data result,
    fs path = inr data /\ parseString data = inr result /\
    body result = Normal value.
Proof.
  unfold settle, readFile.
  destruct (fs path) as [err | data]; simpl; [discriminate |].
  destruct (parseString data) as [err | result] eqn:Hparse; simpl;
    [discriminate |].
  destruct (body result) as [v |] eqn:Hbody; simpl; [| discriminate].
  intros H. injection H as ->. exists data, result. auto.
Qed.

Lemma settle_parsed {A} (body : JsVal -> Completion A) (path : string)
      (fs : FileSystem) (data : string) (result : JsVal) :
  fs path = inr data ->
  parseString data = inr result ->
  settle body path fs = (tryCatch (body result), fs).
Proof.
  intros Hread Hparse. unfold settle, readFile. rewrite Hread, Hparse.
  reflexivity.
Qed.

(** C7: when the loader fails, both entry points reject with the loader's
    error as [DocumentUnreadable]; when the file is read and the parser
    fails, both reject with the parser's error as [MalformedDocument]. *)
Theorem load_and_parse_failures_surface (path : string) (fs : FileSystem) :
  (forall err : FsError,
      fs path = inl err ->
      fst (getTrackPointsData path fs) = Rejected (DocumentUnreadable err) /\
      fst (GetMetadata path fs) = Rejected (DocumentUnreadable err)) /\
  (forall (data : string) (err : XmlError),
      fs path = inr data ->
      parseString data = inl err ->
      fst (getTrackPointsData path fs) = Rejected (MalformedDocument err) /\
      fst (GetMetadata path fs) = Rejected (MalformedDocument err)).
Proof.
  rewrite getTrackPointsData_settle, GetMetadata_settle.
  unfold settle, readFile.
  split.
  - intros err Hread. rewrite Hread. split; reflexivity.
  - intros data err Hread Hparse. rewrite Hread, Hparse. split; reflexivity.
Qed.

Lemma newParser_fresh (w : World) :
  nth (fst (newParser w)) (parsers (snd (newParser w))) freshParser = freshParser.
Proof. unfold newParser. simpl. apply nth_middle. Qed.

(** With the parser objects in view, a call settles as the try body does
    on what a parser just made hands over for the text of the file, and
    leaves the files as they were. *)
Lemma call_outcome {A} (body : JsVal -> Completion A) (path : string) (w : World) :
  let call :=
    match files w path with
    | inl err => (Rejected (DocumentUnreadable err), w)
    | inr data =>
        let (parser, w1) := newParser w in
        let (parsed, w2) := parseStringOf parser data w1 in
        match parsed with
        | inl err => (Rejected (MalformedDocument err), w2)
        | inr result => (tryCatch (body result), w2)
        end
    end in
  fst call
  = match files w path with
    | inl err => Rejected (DocumentUnreadable err)
    | inr data =>
        match fst (parseWith freshParser data) with
        | inl err => Rejected (MalformedDocument err)
        | inr result => tryCatch (body result)
        end
    end
  /\ files (snd call) = files w.
Proof.
  cbv zeta. destruct (files w path) as [err | data]; [split; reflexivity |].
  pose proof (newParser_fresh w) as Hfresh.
  destruct (newParser w) as [parser w1] eqn:Hnew.
  assert (Hfiles : files w1 = files w).
  { unfold newParser in Hnew. injection Hnew as _ <-. reflexivity. }
  simpl in Hfresh. unfold parseStringOf. rewrite Hfresh.
  destruct (parseWith freshParser data) as [parsed after]. simpl.
  destruct parsed; simpl; split; reflexivity || assumption.
Qed.

(** C9: with the parser objects of earlier calls in view, a call of
    [getTrackPointsData] leaves the files as they were, a second call
    after it settles the same way although the first left its parser
    behind, and the outcome is the same in every world that holds the
    same file at the path, whatever parser objects earlier calls left in
    it; and so for [GetMetadata]. *)
Theorem repeated_calls_agree (path : string) (w : World) :
  (files (snd (getTrackPointsDataIn path w)) = files w /\
   fst (getTrackPointsDataIn path (snd (getTrackPointsDataIn path w)))
   = fst (getTrackPointsDataIn path w) /\
   forall other : World,
     files other path = files w path ->
     fst (getTrackPointsDataIn path other) = fst (getTrackPointsDataIn path w)) /\
  (files (snd (GetMetadataIn path w)) = files w /\
   fst (GetMetadataIn path (snd (GetMetadataIn path w)))
   = fst (GetMetadataIn path w) /\
   forall other : World,
     files other path = files w path ->
     fst (GetMetadataIn path other) = fst (GetMetadataIn path w)).
Proof.
  assert (Hother : forall A (body : JsVal -> Completion A) (w1 w2 : World),
             files w1 path = files w2 path ->
             match files w1 path with
             | inl err => Rejected (DocumentUnreadable err)
             | inr data =>
                 match fst (parseWith freshParser data) with
                 | inl err => Rejected (MalformedDocument err)
                 | inr result => tryCatch (body result)
                 end
             end
             = match files w2 path with
               | inl err => Rejected (DocumentUnreadable err)
               | inr data =>
                   match fst (parseWith freshParser data) with
                   | inl err => Rejected (MalformedDocument err)
                   | inr result => tryCatch (body result)
                   end
               end).
  { intros A body w1 w2 ->. reflexivity. }
  split.
  - destruct (call_outcome tryTrackPoints path w) as [Hout Hfiles].
    fold (getTrackPointsDataIn path w) in Hout, Hfiles.
    split; [assumption |]. split.
    + destruct (call_outcome tryTrackPoints path
                             (snd (getTrackPointsDataIn path w))) as [Hout' _].
      fold (getTrackPointsDataIn path (snd (getTrackPointsDataIn path w))) in Hout'.
      rewrite Hout', Hout. apply Hother. rewrite Hfiles. reflexivity.
    + intros other Hsame.
      destruct (call_outcome tryTrackPoints path other) as [Hout' _].
      fold (getTrackPointsDataIn path other) in Hout'.
      rewrite Hout', Hout. apply Hother. assumption.
  - destruct (call_outcome tryMetadata path w) as [Hout Hfiles].
    fold (GetMetadataIn path w) in Hout, Hfiles.
    split; [assumption |]. split.
    + destruct (call_outcome tryMetadata path (snd (GetMetadataIn path w)))
        as [Hout' _].
      fold (GetMetadataIn path (snd (GetMetadataIn path w))) in Hout'.
      rewrite Hout', Hout. apply Hother. rewrite Hfiles. reflexivity.
    + intros other Hsame.
      destruct (call_outcome tryMetadata path other) as [Hout' _].
      fold (GetMetadataIn path other) in Hout'.
      rewrite Hout', Hout. apply Hother. assumption.
Qed.

Lemma tryMetadata_entry (result result' : JsVal) :
  gpxMetadata result' = gpxMetadata result ->
  tryMetadata result' = tryMetadata result.
Proof. unfold tryMetadata. intros ->. reflexivity. Qed.

Lemma tryTrackPoints_no_track (result : JsVal) :
  trackEntry result = None -> exists e, tryTrackPoints result = Throw e.
Proof.
  unfold trackEntry, tryTrackPoints.
  destruct result as [| | | | props]; simpl; try (eexists; reflexivity).
  destruct (lookup "gpx" props) as [gpx |]; simpl; [| eexists; reflexivity].
  destruct gpx as [| | | | gprops]; simpl; try (eexists; reflexivity).
  intros ->. simpl. eexists; reflexivity.
Qed.

(** C6: for a parsed document with a [gpx] root that has no [metadata]
    entry, [GetMetadata] resolves, and with [name], [desc] and [author]
    all [null]. *)
Theorem metadata_without_block_resolves
        (path : string) (fs : FileSystem) (data : string) (result gpx : JsVal) :
  fs path = inr data ->
  parseString data = inr result ->
  entry "gpx" result = Some gpx ->
  isNode gpx = true ->
  entry "metadata" gpx = None ->
  fst (GetMetadata path fs) = Resolved (mkMetadata JNull JNull JNull).
Proof.
  intros Hread Hparse Hroot Hnode Hmeta.
  rewrite GetMetadata_settle, (settle_parsed _ _ _ _ _ Hread Hparse). simpl.
  assert (Hentry : gpxMetadata result = Normal JUndefined).
  { unfold gpxMetadata.
    destruct result as [| | | | props]; simpl in Hroot; try discriminate.
    simpl. rewrite Hroot. simpl.
    rewrite (getProp_named _ _ Hnode), Hmeta. reflexivity. }
  unfold tryMetadata, cond. rewrite Hentry. reflexivity.
Qed.

(** C3: for a parsed document without a [trk] entry, [getTrackPointsData]
    rejects with [StructureMismatch]; [GetMetadata] settles by its own
    [try] body, which gives the same outcome on every document with the
    same [gpx.metadata], whatever its tracks. *)
Theorem missing_track_rejects
        (path : string) (fs : FileSystem) (data : string) (result : JsVal) :
  fs path = inr data ->
  parseString data = inr result ->
  trackEntry result = None ->
  (exists e, fst (getTrackPointsData path fs) = Rejected (StructureMismatch e)) /\
  fst (GetMetadata path fs) = tryCatch (tryMetadata result) /\
  (forall other : JsVal,
      gpxMetadata other = gpxMetadata result ->
      tryMetadata other = tryMetadata result).
Proof.
  intros Hread Hparse Htrack.
  rewrite getTrackPointsData_settle, GetMetadata_settle.
  rewrite !(settle_parsed _ _ _ _ _ Hread Hparse). simpl.
  split; [| split].
  - destruct (tryTrackPoints_no_track _ Htrack) as [e ->].
    exists e. reflexivity.
  - reflexivity.
  - intros other. apply tryMetadata_entry.
Qed.

(** *** The blocks of the callback *)

Lemma readDigits_stop (radix : N) (c : ascii) (rest : string) (acc : N) (n : nat) :
  digitOf radix c = None ->
  readDigits radix (String c rest) acc n = (acc, n, String c rest).
Proof. intros H. simpl. rewrite H. reflexivity. Qed.

Lemma isDigit_false (c : ascii) : isDigit c = false -> digitOf 10 c = None.
Proof. unfold isDigit. destruct (digitOf 10 c); [discriminate | reflexivity]. Qed.

Lemma parseFloatText_NaN (text : string) :
  startsNumber text = false -> parseFloatText text = NaN.
Proof.
  unfold startsNumber, parseFloatText.
  destruct (readSign (trimStart text)) as [neg body].
  intros H. apply orb_false_elim in H as [Hinf Hbody]. rewrite Hinf.
  destruct body as [| c rest]; [reflexivity |].
  apply orb_false_elim in Hbody as [Hc Hdot].
  rewrite (readDigits_stop _ _ _ _ _ (isDigit_false _ Hc)).
  unfold afterDot.
  destruct (Ascii.eqb c ".") eqn:Edot; [| reflexivity].
  simpl in Hdot.
  destruct rest as [| d rest']; [reflexivity |].
  rewrite (readDigits_stop _ _ _ _ _ (isDigit_false _ Hdot)). reflexivity.
Qed.

Lemma children_first (tag : string) (node first : JsVal) (rest : list JsVal) :
  children tag node = first :: rest ->
  getProp node (Named tag) = Normal (JArr (first :: rest)) /\
  firstOf tag node = Normal first.
Proof.
  unfold children, firstOf.
  destruct node as [| | | | props]; simpl; try discriminate.
  destruct (lookup tag props) as [v |]; [| discriminate].
  destruct v; try discriminate.
  intros ->. split; reflexivity.
Qed.

Lemma coordinateOf_missing (attribute : string) (point attrs : JsVal) :
  entry "$" point = Some attrs ->
  isNode attrs = true ->
  entry attribute attrs = None ->
  coordinateOf attribute point = Normal (FNumber NaN).
Proof.
  intros Hattrs Hnode Hmiss. unfold coordinateOf.
  rewrite (getProp_named _ _ (entry_isNode _ _ _ Hattrs)), Hattrs. simpl.
  rewrite (getProp_named _ _ Hnode), Hmiss. reflexivity.
Qed.

Lemma coordinateOf_text (attribute : string) (point attrs : JsVal) (text : string) :
  entry "$" point = Some attrs ->
  entry attribute attrs = Some (JStr text) ->
  coordinateOf attribute point = Normal (FNumber (parseFloatText text)).
Proof.
  intros Hattrs Htext. unfold coordinateOf.
  rewrite (getProp_named _ _ (entry_isNode _ _ _ Hattrs)), Hattrs. simpl.
  rewrite (getProp_named _ _ (entry_isNode _ _ _ Htext)), Htext. reflexivity.
Qed.

Lemma coordinateOf_no_attributes (attribute : string) (point : JsVal) :
  entry "$" point = None ->
  exists e, coordinateOf attribute point = Throw e.
Proof.
  intros H. unfold coordinateOf.
  destruct point; simpl in *; try (eexists; reflexivity).
  rewrite H. eexists; reflexivity.
Qed.

Lemma coordinateOf_number (attribute : string) (point : JsVal) (f : Field) :
  coordinateOf attribute point = Normal f -> exists n, f = FNumber n.
Proof.
  unfold coordinateOf.
  destruct (getProp point (Named "$")) as [attrs |]; simpl; [| discriminate].
  destruct (getProp attrs (Named attribute)) as [text |]; simpl; [| discriminate].
  destruct (parseFloat text) as [n |]; simpl; [| discriminate].
  intros H. injection H as <-. exists n. reflexivity.
Qed.

Lemma guard_absent (tag : string) (point : JsVal) (rest : Completion JsVal) :
  isNode point = true ->
  entry tag point = None ->
  andAlso (getProp point (Named tag)) rest = Normal JUndefined.
Proof.
  intros Hnode Hmiss. unfold andAlso.
  rewrite (getProp_named _ _ Hnode), Hmiss. reflexivity.
Qed.

Lemma guard_first (tag : string) (point first : JsVal) (rest : list JsVal) :
  children tag point = first :: rest ->
  andAlso (getProp point (Named tag)) (firstOf tag point) = Normal first.
Proof.
  intros H. destruct (children_first _ _ _ _ H) as [Hget Hfirst].
  unfold andAlso. rewrite Hget, Hfirst. reflexivity.
Qed.

Lemma elevationOf_absent (point : JsVal) :
  isNode point = true -> entry "ele" point = None ->
  elevationOf point = Normal FNull.
Proof.
  intros Hnode Hmiss. unfold elevationOf.
  rewrite (guard_absent _ _ _ Hnode Hmiss). reflexivity.
Qed.

Lemma elevationOf_text (point : JsVal) (text : string) (rest : list JsVal) :
  children "ele" point = JStr text :: rest ->
  elevationOf point
  = Normal (if String.eqb text "" then FNull else FNumber (parseFloatText text)).
Proof.
  intros H. unfold elevationOf. rewrite (guard_first _ _ _ _ H).
  destruct (children_first _ _ _ _ H) as [_ ->]. simpl.
  destruct (String.eqb text ""); reflexivity.
Qed.

Lemma timestampOf_absent (point : JsVal) :
  isNode point = true -> entry "time" point = None ->
  timestampOf point = Normal FNull.
Proof.
  intros Hnode Hmiss. unfold timestampOf.
  rewrite (guard_absent _ _ _ Hnode Hmiss). reflexivity.
Qed.

Lemma timestampOf_text (point : JsVal) (text : string) (rest : list JsVal) :
  children "time" point = JStr text :: rest ->
  timestampOf point
  = Normal (if String.eqb text "" then FNull else FText (localeStringOfText text)).
Proof.
  intros H. unfold timestampOf. rewrite (guard_first _ _ _ _ H).
  destruct (children_first _ _ _ _ H) as [_ ->]. simpl.
  destruct (String.eqb text ""); reflexivity.
Qed.

Lemma heartRateNode_element (point rate : JsVal) :
  heartRateElement point = Some rate ->
  heartRateNode point = Normal rate /\
  exists items, getProp point (Named "extensions") = Normal (JArr items).
Proof.
  unfold heartRateElement, heartRateNode.
  destruct (children "extensions" point) as [| extension exts] eqn:Hext;
    [discriminate |].
  destruct (children wrapper extension) as [| first firsts] eqn:Hwrap;
    [discriminate |].
  destruct (children hr first) as [| r rates] eqn:Hrate; [discriminate |].
  intros H. injection H as <-.
  destruct (children_first _ _ _ _ Hext) as [Hget Hfirst].
  destruct (children_first _ _ _ _ Hwrap) as [_ Hfirst'].
  destruct (children_first _ _ _ _ Hrate) as [_ Hfirst''].
  split; [| eexists; exact Hget].
  rewrite firstOf_then, Hfirst. simpl.
  rewrite firstOf_then, Hfirst'. simpl.
  exact Hfirst''.
Qed.

Lemma heartRateOf_absent (point : JsVal) :
  isNode point = true -> entry "extensions" point = None ->
  heartRateOf point = Normal FNull.
Proof.
  intros Hnode Hmiss. unfold heartRateOf.
  rewrite (guard_absent _ _ _ Hnode Hmiss). reflexivity.
Qed.

Lemma heartRateOf_text (point : JsVal) (text : string) :
  heartRateElement point = Some (JStr text) ->
  heartRateOf point
  = Normal (if String.eqb text "" then FNull else FNumber (parseIntText text)).
Proof.
  intros H. destruct (heartRateNode_element _ _ H) as [Hnode [items Hget]].
  unfold heartRateOf, andAlso. rewrite Hget, Hnode. simpl.
  destruct (String.eqb text ""); reflexivity.
Qed.

Lemma heartRateOf_misses (point : JsVal) :
  missesHeartRate point = true -> exists e, heartRateOf point = Throw e.
Proof.
  unfold missesHeartRate.
  destruct (children "extensions" point) as [| extension exts] eqn:Hext;
    [discriminate |].
  destruct (children_first _ _ _ _ Hext) as [Hget Hfirst].
  intros H.
  assert (Hnode : exists e, heartRateNode point = Throw e).
  { unfold heartRateNode. rewrite firstOf_then, Hfirst. simpl.
    rewrite firstOf_then.
    destruct (entry wrapper extension) as [w |] eqn:Hw.
    - destruct (children wrapper extension) as [| first firsts] eqn:Hwrap;
        [discriminate |].
      destruct (children_first _ _ _ _ Hwrap) as [_ ->]. simpl.
      destruct (entry hr first) eqn:Hhr; [discriminate |].
      apply (firstOf_absent hr first Hhr).
    - destruct (firstOf_absent wrapper extension Hw) as [e ->].
      exists e. reflexivity. }
  destruct Hnode as [e He]. exists e.
  unfold heartRateOf, andAlso. rewrite Hget. simpl. rewrite He. reflexivity.
Qed.

Lemma trackPointOf_fields (point : JsVal) (r : TrackPoint) :
  trackPointOf point = Normal r ->
  coordinateOf "lat" point = Normal (lat r) /\
  coordinateOf "lon" point = Normal (lon r) /\
  elevationOf point = Normal (elevation r) /\
  timestampOf point = Normal (timestamp r) /\
  heartRateOf point = Normal (heartRate r).
Proof.
  unfold trackPointOf.
  destruct (coordinateOf "lat" point); simpl; [| discriminate].
  destruct (coordinateOf "lon" point); simpl; [| discriminate].
  destruct (elevationOf point); simpl; [| discriminate].
  destruct (timestampOf point); simpl; [| discriminate].
  destruct (heartRateOf point); simpl; [| discriminate].
  intros H. injection H as <-. simpl. repeat split; reflexivity.
Qed.

Lemma trackPointOf_throws (point : JsVal) :
  (exists e, coordinateOf "lat" point = Throw e) \/
  (exists e, heartRateOf point = Throw e) ->
  exists e, trackPointOf point = Throw e.
Proof.
  unfold trackPointOf.
  intros [[e He] | [e He]].
  - rewrite He. eexists; reflexivity.
  - rewrite He.
    destruct (coordinateOf "lat" point); simpl; [| eexists; reflexivity].
    destruct (coordinateOf "lon" point); simpl; [| eexists; reflexivity].
    destruct (elevationOf point); simpl; [| eexists; reflexivity].
    destruct (timestampOf point); simpl; eexists; reflexivity.
Qed.

Lemma throwing_point_rejects
      (path : string) (fs : FileSystem) (data : string) (result : JsVal)
      (points : list JsVal) (point : JsVal) :
  fs path = inr data ->
  parseString data = inr result ->
  trackPointList result = Some points ->
  In point points ->
  (exists e, trackPointOf point = Throw e) ->
  exists e, fst (getTrackPointsData path fs) = Rejected (StructureMismatch e).
Proof.
  intros Hread Hparse Hlist Hin Hthrow.
  rewrite getTrackPointsData_settle, (settle_parsed _ _ _ _ _ Hread Hparse).
  rewrite (tryTrackPoints_list _ _ Hlist).
  destruct (mapM_throws trackPointOf points point Hin Hthrow) as [e ->].
  exists e. reflexivity.
Qed.

Lemma eqb_empty (text : string) : text <> "" -> String.eqb text "" = false.
Proof. intros H. apply String.eqb_neq. assumption. Qed.

Lemma optionalText_children (tag : string) (point : JsVal) :
  optionalText tag point = true ->
  entry tag point = None \/
  exists text rest, children tag point = JStr text :: rest.
Proof.
  unfold optionalText, children.
  destruct (entry tag point) as [v |]; [| left; reflexivity].
  destruct v as [| | | items |]; try discriminate.
  destruct items as [| first rest]; [discriminate |].
  destruct first; try discriminate.
  intros _. right. eexists; eexists; reflexivity.
Qed.

Lemma coordinateOf_completes (attribute : string) (point attrs : JsVal) :
  entry "$" point = Some attrs ->
  isNode attrs = true ->
  textOrAbsent attribute attrs = true ->
  exists f, coordinateOf attribute point = Normal f.
Proof.
  intros Hattrs Hnode Hshape. unfold textOrAbsent in Hshape.
  destruct (entry attribute attrs) as [v |] eqn:Hentry.
  - destruct v; try discriminate.
    rewrite (coordinateOf_text _ _ _ _ Hattrs Hentry). eexists; reflexivity.
  - rewrite (coordinateOf_missing _ _ _ Hattrs Hnode Hentry).
    eexists; reflexivity.
Qed.

Lemma elevationOf_completes (point : JsVal) :
  isNode point = true -> optionalText "ele" point = true ->
  exists f, elevationOf point = Normal f.
Proof.
  intros Hnode Hele.
  destruct (optionalText_children _ _ Hele) as [Hnone | (text & rest & Hc)].
  - rewrite (elevationOf_absent _ Hnode Hnone). eexists; reflexivity.
  - rewrite (elevationOf_text _ _ _ Hc). eexists; reflexivity.
Qed.

Lemma timestampOf_completes (point : JsVal) :
  isNode point = true -> optionalText "time" point = true ->
  exists f, timestampOf point = Normal f.
Proof.
  intros Hnode Htime.
  destruct (optionalText_children _ _ Htime) as [Hnone | (text & rest & Hc)].
  - rewrite (timestampOf_absent _ Hnode Hnone). eexists; reflexivity.
  - rewrite (timestampOf_text _ _ _ Hc). eexists; reflexivity.
Qed.

Lemma heartRateOf_completes (point : JsVal) :
  isNode point = true -> optionalHeartRate point = true ->
  exists f, heartRateOf point = Normal f.
Proof.
  intros Hnode Hhr. unfold optionalHeartRate in Hhr.
  destruct (entry "extensions" point) eqn:Hext.
  - destruct (heartRateElement point) as [rate |] eqn:Hrate; [| discriminate].
    destruct rate; try discriminate.
    rewrite (heartRateOf_text _ _ Hrate). eexists; reflexivity.
  - rewrite (heartRateOf_absent _ Hnode Hext). eexists; reflexivity.
Qed.

Lemma attributedPoint_total (point : JsVal) :
  attributedPoint point = true -> exists record, trackPointOf point = Normal record.
Proof.
  unfold attributedPoint.
  destruct (entry "$" point) as [attrs |] eqn:Hattrs; [| discriminate].
  intros H.
  apply andb_prop in H as [H Hhr]. apply andb_prop in H as [H Htime].
  apply andb_prop in H as [H Hele]. apply andb_prop in H as [H Hlon].
  apply andb_prop in H as [Hnode Hlat].
  pose proof (entry_isNode _ _ _ Hattrs) as Hpoint.
  destruct (coordinateOf_completes _ _ _ Hattrs Hnode Hlat) as [la Hla].
  destruct (coordinateOf_completes _ _ _ Hattrs Hnode Hlon) as [lo Hlo].
  destruct (elevationOf_completes _ Hpoint Hele) as [e He].
  destruct (timestampOf_completes _ Hpoint Htime) as [t Ht].
  destruct (heartRateOf_completes _ Hpoint Hhr) as [h Hh].
  unfold trackPointOf. rewrite Hla, Hlo, He, Ht, Hh. simpl.
  eexists; reflexivity.
Qed.

Lemma fieldIs_elevation (point : JsVal) (value : Field) :
  elevationOf point = Normal value -> fieldIs elevationOf elevation point value.
Proof.
  intros H.
  assert (Hfield : forall record,
             trackPointOf point = Normal record -> elevation record = value).
  { intros record Hrec.
    apply trackPointOf_fields in Hrec as (_ & _ & He & _ & _). congruence. }
  split; [assumption |]. split; [assumption |].
  intros Hshape. destruct (attributedPoint_total _ Hshape) as [record Hrec].
  exists record. split; [assumption | apply Hfield; assumption].
Qed.

Lemma fieldIs_timestamp (point : JsVal) (value : Field) :
  timestampOf point = Normal value -> fieldIs timestampOf timestamp point value.
Proof.
  intros H.
  assert (Hfield : forall record,
             trackPointOf point = Normal record -> timestamp record = value).
  { intros record Hrec.
    apply trackPointOf_fields in Hrec as (_ & _ & _ & Ht & _). congruence. }
  split; [assumption |]. split; [assumption |].
  intros Hshape. destruct (attributedPoint_total _ Hshape) as [record Hrec].
  exists record. split; [assumption | apply Hfield; assumption].
Qed.

Lemma fieldIs_heartRate (point : JsVal) (value : Field) :
  heartRateOf point = Normal value -> fieldIs heartRateOf heartRate point value.
Proof.
  intros H.
  assert (Hfield : forall record,
             trackPointOf point = Normal record -> heartRate record = value).
  { intros record Hrec.
    apply trackPointOf_fields in Hrec as (_ & _ & _ & _ & Hh). congruence. }
  split; [assumption |]. split; [assumption |].
  intros Hshape. destruct (attributedPoint_total _ Hshape) as [record Hrec].
  exists record. split; [assumption | apply Hfield; assumption].
Qed.



(** C2, as the code has it: when the first segment of the first track
    carries a track-point list with no entry, [getTrackPointsData]
    resolves with the empty sequence; when the segment has no track-point
    list at all, it rejects with [StructureMismatch]. *)
Theorem empty_track_point_list
        (path : string) (fs : FileSystem) (data : string)
        (result segment : JsVal) :
  fs path = inr data ->
  parseString data = inr result ->
  firstSegment result = Some segment ->
  (entry "trkpt" segment = Some (JArr []) ->
   fst (getTrackPointsData path fs) = Resolved []) /\
  (entry "trkpt" segment = None ->
   exists e, fst (getTrackPointsData path fs) = Rejected (StructureMismatch e)).
Proof.
  intros Hread Hparse Hseg.
  rewrite getTrackPointsData_settle, (settle_parsed _ _ _ _ _ Hread Hparse).
  rewrite (tryTrackPoints_segment _ _ Hseg). simpl.
  split; intros Hentry.
  - rewrite (getProp_named _ _ (entry_isNode _ _ _ Hentry)), Hentry.
    reflexivity.
  - destruct segment as [| | | | props]; simpl; try (eexists; reflexivity).
    simpl in Hentry. rewrite Hentry. simpl. eexists; reflexivity.
Qed.

Lemma coordinateOf_unreadable (attribute : string) (point : JsVal) :
  attributedPoint point = true ->
  coordinateUnreadable attribute point = true ->
  coordinateOf attribute point = Normal (FNumber NaN).
Proof.
  unfold attributedPoint, coordinateUnreadable.
  destruct (entry "$" point) as [attrs |] eqn:Hattrs; [| discriminate].
  intros Hshape Hunreadable.
  repeat (apply andb_prop in Hshape as [Hshape _]).
  destruct (entry attribute attrs) as [v |] eqn:Hentry.
  - destruct v; try discriminate.
    rewrite (coordinateOf_text _ _ _ _ Hattrs Hentry).
    apply negb_true_iff in Hunreadable.
    rewrite (parseFloatText_NaN _ Hunreadable). reflexivity.
  - apply (coordinateOf_missing _ _ _ Hattrs Hshape Hentry).
Qed.

(** C4, as the code has it: in every record [getTrackPointsData] resolves
    with, [lat] and [lon] are never [null]; for a point that carries
    attributes, a missing [lat] or [lon], or one whose text does not begin
    a number, raises nothing and is read as [NaN], and every record the
    callback builds from the point has [NaN] in that field; when the
    listed points
    carry attributes and optional children of the consumed shape,
    [getTrackPointsData] resolves, and the record of every point whose
    [lat] or [lon] is missing or does not begin a number has [NaN] in that
    field; a point that carries no attributes makes the callback throw and
    the extraction reject with [StructureMismatch]. *)
Theorem coordinates_never_absent (path : string) (fs : FileSystem) :
  (forall records,
      fst (getTrackPointsData path fs) = Resolved records ->
      Forall (fun record => lat record <> FNull /\ lon record <> FNull) records) /\
  (forall (point attrs : JsVal) (attribute : string),
      entry "$" point = Some attrs ->
      isNode attrs = true ->
      entry attribute attrs = None \/
      (exists text, entry attribute attrs = Some (JStr text) /\
                    startsNumber text = false) ->
      coordinateOf attribute point = Normal (FNumber NaN) /\
      forall record : TrackPoint,
        trackPointOf point = Normal record ->
        (attribute = "lat" -> lat record = FNumber NaN) /\
        (attribute = "lon" -> lon record = FNumber NaN)) /\
  (forall (data : string) (result : JsVal) (points : list JsVal),
      fs path = inr data ->
      parseString data = inr result ->
      trackPointList result = Some points ->
      forallb attributedPoint points = true ->
      exists records,
        fst (getTrackPointsData path fs) = Resolved records /\
        Forall2 (fun point record =>
                   trackPointOf point = Normal record /\
                   (coordinateUnreadable "lat" point = true ->
                    lat record = FNumber NaN) /\
                   (coordinateUnreadable "lon" point = true ->
                    lon record = FNumber NaN))
                points records) /\
  (forall (point : JsVal) (data : string) (result : JsVal) (points : list JsVal),
      entry "$" point = None ->
      (exists e, trackPointOf point = Throw e) /\
      (fs path = inr data ->
       parseString data = inr result ->
       trackPointList result = Some points ->
       In point points ->
       exists e, fst (getTrackPointsData path fs) = Rejected (StructureMismatch e))).
Proof.
  split; [| split; [| split]].
  - intros records Hres. rewrite getTrackPointsData_settle in Hres.
    apply settle_resolved in Hres as (data & result & _ & _ & Hbody).
    apply tryTrackPoints_records in Hbody as [points Hall].
    induction Hall as [| point record points records Hrec _ IH];
      constructor; [| assumption].
    apply trackPointOf_fields in Hrec as (Hlat & Hlon & _).
    apply coordinateOf_number in Hlat as [n Hn].
    apply coordinateOf_number in Hlon as [m Hm].
    rewrite Hn, Hm. split; discriminate.
  - intros point attrs attribute Hattrs Hnode Hunreadable.
    assert (Hread : coordinateOf attribute point = Normal (FNumber NaN)).
    { destruct Hunreadable as [Hmiss | (text & Htext & Hnum)].
      - apply (coordinateOf_missing _ _ _ Hattrs Hnode Hmiss).
      - rewrite (coordinateOf_text _ _ _ _ Hattrs Htext).
        rewrite (parseFloatText_NaN _ Hnum). reflexivity. }
    split; [assumption |].
    intros record Hrec.
    apply trackPointOf_fields in Hrec as (Hlat & Hlon & _).
    split; intros ->; congruence.
  - intros data result points Hread Hparse Hlist Hshape.
    rewrite getTrackPointsData_settle, (settle_parsed _ _ _ _ _ Hread Hparse).
    rewrite (tryTrackPoints_list _ _ Hlist).
    assert (Hall : Forall (fun p => exists r, trackPointOf p = Normal r) points).
    { apply Forall_forall. intros p Hin. apply attributedPoint_total.
      rewrite forallb_forall in Hshape. apply Hshape. assumption. }
    destruct (mapM_total _ _ Hall) as [records Hrecords].
    exists records. rewrite Hrecords. split; [reflexivity |].
    pose proof (mapM_pointwise _ _ _ Hrecords) as Hpoint.
    rewrite forallb_forall in Hshape. clear Hlist Hall Hrecords.
    induction Hpoint as [| point record points records Hrec _ IH];
      constructor.
    + pose proof (Hshape point (or_introl eq_refl)) as Hp.
      pose proof (trackPointOf_fields _ _ Hrec) as (Hlat & Hlon & _).
      split; [assumption |]. split; intros Hun.
      * rewrite (coordinateOf_unreadable _ _ Hp Hun) in Hlat. congruence.
      * rewrite (coordinateOf_unreadable _ _ Hp Hun) in Hlon. congruence.
    + apply IH. intros p Hin. apply Hshape. right. assumption.
  - intros point data result points Hnone.
    assert (Hthrow : exists e, trackPointOf point = Throw e).
    { apply trackPointOf_throws. left.
      apply coordinateOf_no_attributes. assumption. }
    split; [assumption |].
    intros Hread Hparse Hlist Hin.
    apply (throwing_point_rejects _ _ _ _ _ _ Hread Hparse Hlist Hin Hthrow).
Qed.

(** C5, as the code has it: a point with no [extensions] child gets a
    [null] heart rate and nothing is thrown; with the nesting
    [extensions > TrackPointExtension > hr] and a non-empty text in the
    heart-rate element, [heartRate] is [parseInt] of that text; in both
    cases a point with attributes and optional children of the consumed
    shape does get a record, with that heart rate in it; when the
    [extensions] child lacks the wrapper, or the wrapper lacks the
    heart-rate element, the callback throws and the whole extraction
    rejects with [StructureMismatch]. *)
Theorem heart_rate_cases (point : JsVal) :
  (isNode point = true ->
   entry "extensions" point = None ->
   fieldIs heartRateOf heartRate point FNull) /\
  (forall text : string,
      heartRateElement point = Some (JStr text) ->
      text <> "" ->
      fieldIs heartRateOf heartRate point (FNumber (parseIntText text))) /\
  (missesHeartRate point = true ->
   (exists e, heartRateOf point = Throw e) /\
   forall (path : string) (fs : FileSystem) (data : string) (result : JsVal)
          (points : list JsVal),
     fs path = inr data ->
     parseString data = inr result ->
     trackPointList result = Some points ->
     In point points ->
     exists e, fst (getTrackPointsData path fs) = Rejected (StructureMismatch e)).
Proof.
  split; [| split].
  - intros Hnode Hnone. apply fieldIs_heartRate.
    apply heartRateOf_absent; assumption.
  - intros text Helem Hne. apply fieldIs_heartRate.
    rewrite (heartRateOf_text _ _ Helem), (eqb_empty _ Hne). reflexivity.
  - intros Hmiss. pose proof (heartRateOf_misses _ Hmiss) as Hthrow.
    split; [assumption |].
    intros path fs data result points Hread Hparse Hlist Hin.
    apply (throwing_point_rejects _ _ _ _ _ _ Hread Hparse Hlist Hin).
    apply trackPointOf_throws. right. assumption.
Qed.


Lemma getProp_remove (k k' : string) (props : list (string * JsVal)) :
  k <> k' ->
  getProp (JObj (remove k' props)) (Named k) = getProp (JObj props) (Named k).
Proof. intros H. simpl. rewrite (lookup_remove_other _ _ _ H). reflexivity. Qed.

Lemma entry_remove (k : string) (props : list (string * JsVal)) :
  entry k (JObj (remove k props)) = None.
Proof. apply lookup_remove_same. Qed.

Lemma children_lookup (tag : string) (props : list (string * JsVal))
      (items : list JsVal) :
  lookup tag props = Some (JArr items) -> children tag (JObj props) = items.
Proof. unfold children. simpl. intros ->. reflexivity. Qed.

Lemma trackPointOf_without_elevation (props : list (string * JsVal)) :
  elevationOf (JObj props) = Normal FNull ->
  trackPointOf (JObj props) = trackPointOf (JObj (remove "ele" props)).
Proof.
  intros H. unfold trackPointOf. rewrite H.
  rewrite (elevationOf_absent (JObj (remove "ele" props)) eq_refl (entry_remove _ _)).
  unfold coordinateOf, timestampOf, heartRateOf, heartRateNode, firstOf.
  rewrite !(getProp_remove "$" "ele") by discriminate.
  rewrite !(getProp_remove "time" "ele") by discriminate.
  rewrite !(getProp_remove "extensions" "ele") by discriminate.
  reflexivity.
Qed.

Lemma trackPointOf_without_time (props : list (string * JsVal)) :
  timestampOf (JObj props) = Normal FNull ->
  trackPointOf (JObj props) = trackPointOf (JObj (remove "time" props)).
Proof.
  intros H. unfold trackPointOf. rewrite H.
  rewrite (timestampOf_absent (JObj (remove "time" props)) eq_refl (entry_remove _ _)).
  unfold coordinateOf, elevationOf, heartRateOf, heartRateNode, firstOf.
  rewrite !(getProp_remove "$" "time") by discriminate.
  rewrite !(getProp_remove "ele" "time") by discriminate.
  rewrite !(getProp_remove "extensions" "time") by discriminate.
  reflexivity.
Qed.

(** C10: a point whose [ele] child holds the empty text gets a [null]
    elevation and the record it would get without the child, and so for
    [time] and the timestamp; an empty heart-rate element under the
    nesting [extensions > TrackPointExtension > hr] gives a [null] heart
    rate; a point with attributes and optional children of the consumed
    shape does get a record, with [null] in the field. *)
Theorem empty_text_is_absent (props : list (string * JsVal)) :
  (forall rest : list JsVal,
      lookup "ele" props = Some (JArr (JStr "" :: rest)) ->
      fieldIs elevationOf elevation (JObj props) FNull /\
      trackPointOf (JObj props) = trackPointOf (JObj (remove "ele" props))) /\
  (forall rest : list JsVal,
      lookup "time" props = Some (JArr (JStr "" :: rest)) ->
      fieldIs timestampOf timestamp (JObj props) FNull /\
      trackPointOf (JObj props) = trackPointOf (JObj (remove "time" props))) /\
  (heartRateElement (JObj props) = Some (JStr "") ->
   fieldIs heartRateOf heartRate (JObj props) FNull).
Proof.
  split; [| split].
  - intros rest Hele.
    pose proof (elevationOf_text _ _ _ (children_lookup _ _ _ Hele)) as H.
    simpl in H. split.
    + apply fieldIs_elevation. assumption.
    + apply trackPointOf_without_elevation. assumption.
  - intros rest Htime.
    pose proof (timestampOf_text _ _ _ (children_lookup _ _ _ Htime)) as H.
    simpl in H. split.
    + apply fieldIs_timestamp. assumption.
    + apply trackPointOf_without_time. assumption.
  - intros Helem. apply fieldIs_heartRate.
    rewrite (heartRateOf_text _ _ Helem). reflexivity.
Qed.

(** *** Further properties of the two entry points *)

Lemma mapM_complete {A B} (f : A -> Completion B) (l : list A) (out : list B) :
  Forall2 (fun a b => f a = Normal b) l out -> mapM f l = Normal out.
Proof.
  induction 1 as [| a b l out Hab _ IH]; simpl; [reflexivity |].
  rewrite Hab, IH. reflexivity.
Qed.

Lemma mapM_first_throw {A B} (f : A -> Completion B) (before after : list A)
      (a : A) (e : TypeError) :
  Forall (fun x => exists b, f x = Normal b) before ->
  f a = Throw e ->
  mapM f (before ++ a :: after)%list = Throw e.
Proof.
  intros Hbefore Ha.
  induction Hbefore as [| x before [b Hb] _ IH]; simpl.
  - rewrite Ha. reflexivity.
  - rewrite Hb, IH. reflexivity.
Qed.

(** X1: with a track-point list in the first segment of the first track,
    [getTrackPointsData] resolves with a sequence exactly when the callback
    completes on every listed point and the sequence holds its results in
    the order of the list. *)
Theorem resolves_iff_every_point_completes
        (path : string) (fs : FileSystem) (data : string) (result : JsVal)
        (points : list JsVal) (records : list TrackPoint) :
  fs path = inr data ->
  parseString data = inr result ->
  trackPointList result = Some points ->
  fst (getTrackPointsData path fs) = Resolved records <->
  Forall2 (fun point record => trackPointOf point = Normal record) points records.
Proof.
  intros Hread Hparse Hlist.
  rewrite getTrackPointsData_settle, (settle_parsed _ _ _ _ _ Hread Hparse).
  rewrite (tryTrackPoints_list _ _ Hlist). simpl.
  split.
  - destruct (mapM trackPointOf points) as [out |] eqn:Hmap; simpl;
      [| discriminate].
    intros H. injection H as <-. apply mapM_pointwise. assumption.
  - intros H. rewrite (mapM_complete _ _ _ H). reflexivity.
Qed.

(** X2: when the callback completes on the points before a point and
    throws on that point, [getTrackPointsData] rejects with the error of
    that point, whatever the points after it do. *)
Theorem first_throwing_point_decides
        (path : string) (fs : FileSystem) (data : string) (result : JsVal)
        (before after : list JsVal) (point : JsVal) (e : TypeError) :
  fs path = inr data ->
  parseString data = inr result ->
  trackPointList result = Some (before ++ point :: after)%list ->
  Forall (fun p => exists record, trackPointOf p = Normal record) before ->
  trackPointOf point = Throw e ->
  fst (getTrackPointsData path fs) = Rejected (StructureMismatch e).
Proof.
  intros Hread Hparse Hlist Hbefore Hthrow.
  rewrite getTrackPointsData_settle, (settle_parsed _ _ _ _ _ Hread Hparse).
  rewrite (tryTrackPoints_list _ _ Hlist).
  rewrite (mapM_first_throw _ _ _ _ _ Hbefore Hthrow). reflexivity.
Qed.

(** X3: two files whose parsed documents have the same first segment in
    their first track settle [getTrackPointsData] the same way, whatever
    other tracks and segments they hold. *)
Theorem only_first_segment_is_read
        (path path' : string) (fs : FileSystem) (data data' : string)
        (result result' segment : JsVal) :
  fs path = inr data ->
  parseString data = inr result ->
  fs path' = inr data' ->
  parseString data' = inr result' ->
  firstSegment result = Some segment ->
  firstSegment result' = Some segment ->
  fst (getTrackPointsData path fs) = fst (getTrackPointsData path' fs).
Proof.
  intros Hread Hparse Hread' Hparse' Hseg Hseg'.
  rewrite getTrackPointsData_settle.
  rewrite (settle_parsed _ _ _ _ _ Hread Hparse).
  rewrite (settle_parsed _ _ _ _ _ Hread' Hparse').
  rewrite (tryTrackPoints_segment _ _ Hseg), (tryTrackPoints_segment _ _ Hseg').
  reflexivity.
Qed.

Lemma getProp_object (props : list (string * JsVal)) (k : string) :
  getProp (JObj props) (Named k) = Normal (orUndefined (lookup k props)).
Proof. reflexivity. Qed.

(** X4: the callback reads four entries of a point, [$], [ele], [time]
    and [extensions]: two points that agree on them get the same outcome,
    whatever other children they have. *)
Theorem callback_reads_four_entries (props props' : list (string * JsVal)) :
  lookup "$" props = lookup "$" props' ->
  lookup "ele" props = lookup "ele" props' ->
  lookup "time" props = lookup "time" props' ->
  lookup "extensions" props = lookup "extensions" props' ->
  trackPointOf (JObj props) = trackPointOf (JObj props').
Proof.
  intros Hattrs Hele Htime Hext.
  unfold trackPointOf, coordinateOf, elevationOf, timestampOf, heartRateOf,
    heartRateNode, firstOf.
  rewrite !getProp_object. rewrite Hattrs, Hele, Htime, Hext. reflexivity.
Qed.

Lemma firstOrNull_child (tag : string) (node : JsVal) :
  isNode node = true ->
  listedOrAbsent tag node = true ->
  firstOrNull tag node = Normal (firstChild tag node).
Proof.
  intros Hnode Hshape.
  unfold firstOrNull, cond, firstOf, firstChild, children.
  unfold listedOrAbsent in Hshape.
  rewrite (getProp_named _ _ Hnode).
  destruct (entry tag node) as [v |]; [| reflexivity].
  destruct v as [| | | items |]; try discriminate.
  destruct items as [| first rest]; [discriminate | reflexivity].
Qed.

(** X5: for a parsed document with a [gpx] root whose first [metadata]
    block is a node, [GetMetadata] resolves, and [name], [desc] and
    [author] are each the first child of that block with the tag, as the
    parser left it, or [null] when the block has none; further blocks and
    further children are not read. *)
Theorem metadata_takes_first_children
        (path : string) (fs : FileSystem) (data : string)
        (result gpx block : JsVal) (blocks : list JsVal) :
  fs path = inr data ->
  parseString data = inr result ->
  entry "gpx" result = Some gpx ->
  children "metadata" gpx = block :: blocks ->
  isNode block = true ->
  listedOrAbsent "name" block = true ->
  listedOrAbsent "desc" block = true ->
  listedOrAbsent "author" block = true ->
  fst (GetMetadata path fs)
  = Resolved (mkMetadata (firstChild "name" block) (firstChild "desc" block)
                         (firstChild "author" block)).
Proof.
  intros Hread Hparse Hroot Hblocks Hnode Hname Hdesc Hauthor.
  rewrite GetMetadata_settle, (settle_parsed _ _ _ _ _ Hread Hparse).
  destruct (children_first _ _ _ _ Hblocks) as [Hget Hfirst].
  assert (Hentry : gpxMetadata result = Normal (JArr (block :: blocks))).
  { unfold gpxMetadata.
    rewrite (getProp_named _ _ (entry_isNode _ _ _ Hroot)), Hroot. exact Hget. }
  unfold tryMetadata, cond. rewrite Hentry. simpl.
  rewrite (firstOrNull_child _ _ Hnode Hname).
  rewrite (firstOrNull_child _ _ Hnode Hdesc).
  rewrite (firstOrNull_child _ _ Hnode Hauthor). reflexivity.
Qed.

(** X6: a parsed document that is a node without a [gpx] entry makes both
    entry points reject with [StructureMismatch], on reading [trk] and
    [metadata] of [undefined]; so does the [null] a parser hands over,
    on reading [gpx] of [null]. *)
Theorem missing_root_rejects_both
        (path : string) (fs : FileSystem) (data : string) (result : JsVal) :
  fs path = inr data ->
  parseString data = inr result ->
  (isNode result = true ->
   entry "gpx" result = None ->
   fst (getTrackPointsData path fs)
   = Rejected (StructureMismatch (CannotReadProperty false (Named "trk"))) /\
   fst (GetMetadata path fs)
   = Rejected (StructureMismatch (CannotReadProperty false (Named "metadata")))) /\
  (result = JNull ->
   fst (getTrackPointsData path fs)
   = Rejected (StructureMismatch (CannotReadProperty true (Named "gpx"))) /\
   fst (GetMetadata path fs)
   = Rejected (StructureMismatch (CannotReadProperty true (Named "gpx")))).
Proof.
  intros Hread Hparse.
  rewrite getTrackPointsData_settle, GetMetadata_settle.
  rewrite !(settle_parsed _ _ _ _ _ Hread Hparse).
  split.
  - intros Hnode Hroot.
    unfold tryTrackPoints, tryMetadata, cond, gpxMetadata.
    rewrite (getProp_named _ _ Hnode), Hroot. split; reflexivity.
  - intros ->. split; reflexivity.
Qed.

(** *** Numerals *)

Lemma readDigits_step (radix : N) (c : ascii) (rest : string) (acc v : N) (n : nat) :
  digitOf radix c = Some v ->
  readDigits radix (String c rest) acc n
  = readDigits radix rest (acc * radix + v)%N (S n).
Proof. intros H. simpl. rewrite H. reflexivity. Qed.

Lemma readDigits_tail (tail : string) (acc : N) (n : nat) :
  endsDigits tail -> readDigits 10 tail acc n = (acc, n, tail).
Proof.
  destruct tail as [| c rest]; simpl; intros H; [reflexivity |].
  rewrite H. reflexivity.
Qed.

Lemma readDigits_numeral (d : Decimal.uint) (tail : string) (acc n : nat) :
  endsDigits tail ->
  readDigits 10 (digitsText d ++ tail) (N.of_nat acc) n
  = (N.of_nat (Nat.of_uint_acc d acc), (n + Decimal.nb_digits d)%nat, tail).
Proof.
  intros Htail. revert acc n.
  induction d; intros acc n;
    [ simpl; rewrite Nat.add_0_r; apply readDigits_tail; assumption
    | .. ];
    unfold digitsText; simpl DecimalString.NilEmpty.string_of_uint;
    simpl append; fold (digitsText d);
    erewrite readDigits_step by reflexivity;
    match goal with
    | |- readDigits _ _ ?a _ = (N.of_nat (Nat.of_uint_acc _ ?b), _, _) =>
        simpl Nat.of_uint_acc;
        match goal with
        | |- _ = (N.of_nat (Nat.of_uint_acc _ ?b'), _, _) =>
            replace a with (N.of_nat b')
              by (rewrite Nat.tail_mul_spec; simpl (N_of_ascii _); lia)
        end
    end;
    rewrite IHd; simpl Decimal.nb_digits; f_equal; f_equal; lia.
Qed.

Lemma append_empty (s : string) : s ++ "" = s.
Proof. induction s as [| c s IH]; simpl; [reflexivity | rewrite IH; reflexivity]. Qed.

Lemma of_uint_acc_value (d : Decimal.uint) (acc : nat) :
  Nat.of_uint_acc d acc = acc * 10 ^ Decimal.nb_digits d + Nat.of_uint d.
Proof.
  unfold Nat.of_uint. revert acc.
  induction d; intros acc; simpl Nat.of_uint_acc; simpl Decimal.nb_digits;
    [ simpl; lia | .. ];
    match goal with
    | |- Nat.of_uint_acc d ?a = _ + Nat.of_uint_acc d ?b =>
        rewrite (IHd a), (IHd b)
    end;
    rewrite !Nat.tail_mul_spec, Nat.pow_succ_r'; lia.
Qed.

Local Open Scope Z_scope.

Lemma roundHalfEven_one (p : Z) : roundHalfEven p 1 = p.
Proof.
  unfold roundHalfEven. rewrite Z.mod_1_r, Z.div_1_r. reflexivity.
Qed.

Lemma floorLog2_one (p : Z) : 0 < p -> floorLog2 p 1 = Z.log2 p.
Proof.
  intros Hp. unfold floorLog2. simpl (Z.log2 1). rewrite Z.sub_0_r.
  pose proof (Z.log2_nonneg p) as Hl.
  rewrite Z.max_l by lia. rewrite Z.max_r by lia.
  destruct (Z.log2_spec p Hp) as [Hlow _].
  destruct (1 * 2 ^ Z.log2 p <=? p * 2 ^ 0) eqn:E; [reflexivity |].
  apply Z.leb_gt in E. rewrite Z.pow_0_r in E. lia.
Qed.

Lemma dyadic_scaled (neg : bool) (p k : Z) :
  0 < p -> 0 <= k -> dyadic neg (p * 2 ^ k) (- k) = Finite neg (Z.to_N p) 0.
Proof.
  intros Hp Hk. unfold dyadic.
  destruct (0 <=? - k) eqn:E.
  - apply Z.leb_le in E. assert (k = 0) by lia. subst k. simpl.
    rewrite !Z.mul_1_r. reflexivity.
  - rewrite Z.opp_involutive.
    assert (Hg : Z.gcd (p * 2 ^ k) (2 ^ k) = 2 ^ k).
    { replace (2 ^ k) with (1 * 2 ^ k) at 2 by lia.
      rewrite Z.gcd_mul_mono_r_nonneg by (apply Z.pow_nonneg; lia).
      rewrite Z.gcd_1_r. lia. }
    rewrite Hg. rewrite Z.div_mul by (apply Z.pow_nonzero; lia).
    rewrite Z.log2_pow2 by lia. f_equal. lia.
Qed.

Lemma decimal_integer (neg : bool) (n : N) :
  (n < 9007199254740992)%N -> decimal neg n 0 = Finite neg n 0.
Proof.
  intros Hn. destruct n as [| p]; [reflexivity |].
  unfold decimal.
  set (P := Z.of_N (N.pos p)).
  assert (HP : 0 < P) by (unfold P; lia).
  assert (Hbound : P < 2 ^ 53) by (unfold P; lia).
  change (Z.max 0 0) with 0. change (Z.max (- 0) 0) with 0.
  change (10 ^ 0) with 1. rewrite Z.mul_1_r.
  rewrite (floorLog2_one _ HP).
  pose proof (Z.log2_nonneg P) as Hl.
  assert (Hl53 : Z.log2 P < 53) by (apply Z.log2_lt_pow2; lia).
  rewrite (Z.max_l (Z.log2 P - 52)) by lia.
  rewrite (Z.max_l (- (Z.log2 P - 52))) by lia.
  rewrite (Z.max_r (Z.log2 P - 52)) by lia.
  change (1 * 2 ^ 0) with 1. rewrite roundHalfEven_one.
  set (k := - (Z.log2 P - 52)).
  assert (Hk : 0 <= k) by (unfold k; lia).
  assert (Hpos : 0 < P * 2 ^ k) by (apply Z.mul_pos_pos; [lia | apply Z.pow_pos_nonneg; lia]).
  destruct (P * 2 ^ k =? 0) eqn:E0; [apply Z.eqb_eq in E0; lia |].
  assert (Hlog : Z.log2 (P * 2 ^ k) = Z.log2 P + k).
  { rewrite Z.log2_mul_pow2; lia. }
  rewrite Hlog.
  destruct (1024 <=? Z.log2 P + k + (Z.log2 P - 52)) eqn:E1;
    [apply Z.leb_le in E1; unfold k in E1; lia |].
  replace (Z.log2 P - 52) with (- k) by (unfold k; lia).
  rewrite (dyadic_scaled _ _ _ HP Hk). unfold P. rewrite N2Z.id. reflexivity.
Qed.

Local Close Scope Z_scope.

Lemma to_uint_digits (n : nat) : Nat.to_uint n <> Decimal.Nil.
Proof.
  intros H. pose proof (DecimalNat.Unsigned.of_to n) as Hn.
  rewrite H in Hn. simpl in Hn. subst n. discriminate H.
Qed.

Lemma to_uint_zero (n : nat) : Nat.to_uint n = Decimal.D0 Decimal.Nil -> n = 0.
Proof.
  intros H. pose proof (DecimalNat.Unsigned.of_to n) as Hn.
  rewrite H in Hn. simpl in Hn. symmetry. assumption.
Qed.

Lemma nb_digits_positive (d : Decimal.uint) :
  d <> Decimal.Nil -> exists k, Decimal.nb_digits d = S k.
Proof. destruct d; intros H; try contradiction; eexists; reflexivity. Qed.

Lemma digitsText_truthy (d : Decimal.uint) (tail : string) :
  d <> Decimal.Nil -> String.eqb (digitsText d ++ tail) "" = false.
Proof. destruct d; intros H; try contradiction; reflexivity. Qed.

Lemma endsNumeral_digits (tail : string) :
  endsNumeral tail = true -> endsDigits tail.
Proof.
  destruct tail as [| c rest]; simpl; [trivial |].
  unfold isDigit. destruct (digitOf 10 c); [discriminate | reflexivity].
Qed.

Lemma endsDecimal_digits (tail : string) :
  endsDecimal tail = true -> endsDigits tail /\ readExponent tail = 0%Z.
Proof.
  destruct tail as [| c rest]; simpl; [split; trivial |].
  intros H. apply negb_true_iff in H.
  apply orb_false_elim in H as [H HE]. apply orb_false_elim in H as [Hd He].
  rewrite He, HE. split; [| reflexivity].
  unfold isDigit in Hd. destruct (digitOf 10 c); [discriminate | reflexivity].
Qed.

Lemma parseIntText_reads (d : Decimal.uint) (tail : string) :
  d <> Decimal.Nil ->
  (d = Decimal.D0 Decimal.Nil -> startsHexMark tail = false) ->
  parseIntText (digitsText d ++ tail)
  = (let '(v, count, _) := readDigits 10 (digitsText d ++ tail) 0 0 in
     match count with
     | O => NaN
     | S _ => decimal false v 0
     end).
Proof.
  intros H Hhex. destruct d as [| d | d | d | d | d | d | d | d | d | d];
    try contradiction; try reflexivity.
  destruct d; try reflexivity.
  specialize (Hhex eq_refl).
  destruct tail as [| c rest]; [reflexivity |].
  destruct c as [[] [] [] [] [] [] [] []]; try reflexivity; discriminate Hhex.
Qed.

Lemma parseIntText_numeral (d : Decimal.uint) (tail : string) :
  d <> Decimal.Nil ->
  (d = Decimal.D0 Decimal.Nil -> startsHexMark tail = false) ->
  endsNumeral tail = true ->
  parseIntText (digitsText d ++ tail) = decimal false (N.of_nat (Nat.of_uint d)) 0.
Proof.
  intros H Hhex Htail. rewrite (parseIntText_reads _ _ H Hhex).
  pose proof (readDigits_numeral d tail 0 0 (endsNumeral_digits _ Htail)) as Hread.
  simpl N.of_nat in Hread. rewrite Hread.
  destruct (nb_digits_positive _ H) as [k ->]. reflexivity.
Qed.

Lemma parseFloatText_reads (neg : bool) (d : Decimal.uint) (tail : string) :
  parseFloatText (signText neg ++ digitsText d ++ "." ++ tail)
  = (let body := digitsText d ++ "." ++ tail in
     let '(whole, nWhole, afterWhole) := readDigits 10 body 0 0 in
     match afterDot afterWhole with
     | Some fraction =>
         let '(mant, nFrac, afterFrac) := readDigits 10 fraction whole 0 in
         match (nWhole + nFrac)%nat with
         | O => NaN
         | S _ => decimal neg mant (readExponent afterFrac - Z.of_nat nFrac)
         end
     | None =>
         match nWhole with
         | O => NaN
         | S _ => decimal neg whole (readExponent afterWhole)
         end
     end).
Proof. destruct neg, d; reflexivity. Qed.

Lemma parseFloatText_decimal (neg : bool) (w f : Decimal.uint) (tail : string) :
  w <> Decimal.Nil \/ f <> Decimal.Nil ->
  endsDecimal tail = true ->
  parseFloatText (signText neg ++ digitsText w ++ "." ++ digitsText f ++ tail)
  = decimal neg
           (N.of_nat (Nat.of_uint w * 10 ^ Decimal.nb_digits f + Nat.of_uint f))
           (- Z.of_nat (Decimal.nb_digits f)).
Proof.
  intros Hdigits Htail. apply endsDecimal_digits in Htail as [Hends Hexp].
  rewrite parseFloatText_reads. cbv zeta.
  pose proof (readDigits_numeral w ("." ++ digitsText f ++ tail) 0 0 eq_refl)
    as Hwhole.
  simpl N.of_nat in Hwhole. rewrite Hwhole. simpl afterDot. cbv iota beta.
  rewrite (readDigits_numeral f tail (Nat.of_uint_acc w 0) 0 Hends).
  rewrite of_uint_acc_value, Hexp. fold (Nat.of_uint w). simpl Nat.add.
  destruct (Decimal.nb_digits w + Decimal.nb_digits f)%nat eqn:Hcount.
  - exfalso. apply Nat.eq_add_0 in Hcount as [Hw Hf].
    destruct Hdigits as [H | H]; apply H;
      apply DecimalFacts.nb_digits_0; assumption.
  - reflexivity.
Qed.

Lemma parseFloatText_whole (neg : bool) (w : Decimal.uint) (tail : string) :
  w <> Decimal.Nil ->
  endsDecimal tail = true ->
  noPoint tail = true ->
  parseFloatText (signText neg ++ digitsText w ++ tail)
  = decimal neg (N.of_nat (Nat.of_uint w)) 0.
Proof.
  intros Hw Htail Hpoint. apply endsDecimal_digits in Htail as [Hends Hexp].
  assert (Hreads :
            parseFloatText (signText neg ++ digitsText w ++ tail)
            = (let '(whole, nWhole, afterWhole) :=
                 readDigits 10 (digitsText w ++ tail) 0 0 in
               match afterDot afterWhole with
               | Some fraction =>
                   let '(mant, nFrac, afterFrac) :=
                     readDigits 10 fraction whole 0 in
                   match (nWhole + nFrac)%nat with
                   | O => NaN
                   | S _ =>
                       decimal neg mant (readExponent afterFrac - Z.of_nat nFrac)
                   end
               | None =>
                   match nWhole with
                   | O => NaN
                   | S _ => decimal neg whole (readExponent afterWhole)
                   end
               end)).
  { destruct neg, w; try contradiction; reflexivity. }
  rewrite Hreads.
  pose proof (readDigits_numeral w tail 0 0 Hends) as Hwhole.
  simpl N.of_nat in Hwhole. rewrite Hwhole.
  assert (Hdot : afterDot tail = None).
  { destruct tail as [| c rest]; [reflexivity |]. simpl in *.
    apply negb_true_iff in Hpoint. rewrite Hpoint. reflexivity. }
  rewrite Hdot, Hexp.
  destruct (nb_digits_positive _ Hw) as [k ->]. reflexivity.
Qed.

Lemma signed_truthy (neg : bool) (d : Decimal.uint) (tail : string) :
  d <> Decimal.Nil -> String.eqb (signText neg ++ digitsText d ++ tail) "" = false.
Proof. destruct neg, d; intros H; try contradiction; reflexivity. Qed.

Lemma parseIntText_NaN (text : string) :
  startsInteger text = false -> parseIntText text = NaN.
Proof.
  unfold startsInteger, parseIntText.
  destruct (readSign (trimStart text)) as [neg body].
  match goal with
  | |- context [let (r, ds) := ?m in _] => destruct m as [radix digits]
  end.
  destruct digits as [| c rest]; [reflexivity |].
  destruct (digitOf radix c) eqn:Hdigit; [discriminate |].
  intros _. rewrite (readDigits_stop _ _ _ _ _ Hdigit). reflexivity.
Qed.

(** X7: text that is not empty and does not begin a number is neither
    skipped nor an error: an [ele] child with such text gives the elevation
    [NaN], and a heart-rate element whose text does not begin an integer
    gives the heart rate [NaN]; a point with attributes and optional
    children of the consumed shape does get a record, with [NaN] in the
    field. *)
Theorem unreadable_numbers_are_NaN (point : JsVal) :
  (forall (text : string) (rest : list JsVal),
      children "ele" point = JStr text :: rest ->
      text <> "" ->
      startsNumber text = false ->
      fieldIs elevationOf elevation point (FNumber NaN)) /\
  (forall text : string,
      heartRateElement point = Some (JStr text) ->
      text <> "" ->
      startsInteger text = false ->
      fieldIs heartRateOf heartRate point (FNumber NaN)).
Proof.
  split.
  - intros text rest Hc Hne Hnum. apply fieldIs_elevation.
    rewrite (elevationOf_text _ _ _ Hc), (eqb_empty _ Hne).
    rewrite (parseFloatText_NaN _ Hnum). reflexivity.
  - intros text Helem Hne Hnum. apply fieldIs_heartRate.
    rewrite (heartRateOf_text _ _ Helem), (eqb_empty _ Hne).
    rewrite (parseIntText_NaN _ Hnum). reflexivity.
Qed.

(** X8: a heart-rate element whose text begins with the decimal numeral
    of a natural number and goes on with anything but a digit (and, after
    a lone [0], anything but [x] or [X]) gives the double nearest to that
    number as the heart rate, which below 2^53 is the number itself; what
    follows the numeral is not read. *)
Theorem heart_rate_reads_numerals (point : JsVal) (n : nat) (tail : string) :
  heartRateElement point = Some (JStr (decimalText n ++ tail)) ->
  endsNumeral tail = true ->
  (n = 0 -> startsHexMark tail = false) ->
  fieldIs heartRateOf heartRate point (FNumber (decimal false (N.of_nat n) 0)) /\
  ((N.of_nat n < 9007199254740992)%N ->
   fieldIs heartRateOf heartRate point (FNumber (Finite false (N.of_nat n) 0))).
Proof.
  intros Helem Htail Hhex.
  assert (Hrate : heartRateOf point
                  = Normal (FNumber (decimal false (N.of_nat n) 0))).
  { rewrite (heartRateOf_text _ _ Helem). unfold decimalText.
    rewrite (digitsText_truthy _ _ (to_uint_digits n)).
    rewrite (parseIntText_numeral _ _ (to_uint_digits n)); [| | assumption].
    - rewrite DecimalNat.Unsigned.of_to. reflexivity.
    - intros Hzero. apply Hhex. apply to_uint_zero. assumption. }
  split.
  - apply fieldIs_heartRate. assumption.
  - intros Hsmall. apply fieldIs_heartRate.
    rewrite Hrate, (decimal_integer _ _ Hsmall). reflexivity.
Qed.

Lemma textGives_parsed (point : JsVal) (text : string) (value : Number) :
  parseFloatText text = value ->
  String.eqb text "" = false ->
  textGives point text value.
Proof.
  intros Hvalue Htruthy. split.
  - intros attrs attribute Hattrs Htext.
    rewrite (coordinateOf_text _ _ _ _ Hattrs Htext), Hvalue. reflexivity.
  - intros rest Hc. apply fieldIs_elevation.
    rewrite (elevationOf_text _ _ _ Hc), Htruthy, Hvalue. reflexivity.
Qed.

(** X9: a signed decimal numeral is read whole and rounded once, and
    what follows it is not read.  Text that is an optional minus sign, the
    numeral of a natural number, a point, a sequence of k digits and then
    anything but a digit or an exponent mark gives, as a [lat] or [lon]
    attribute and as an [ele] child, the double nearest to
    (whole * 10^k + fraction) * 10^-k with that sign; without the point
    and the digits it gives the double nearest to the whole number, which
    below 2^53 is the number itself. *)
Theorem decimal_numerals_are_rounded
        (point : JsVal) (negative : bool) (whole : nat) (fraction : Decimal.uint)
        (tail : string) :
  endsDecimal tail = true ->
  textGives point
            (signText negative ++ decimalText whole ++ "."
             ++ digitsText fraction ++ tail)
            (decimal negative
                     (N.of_nat (whole * 10 ^ Decimal.nb_digits fraction
                                + Nat.of_uint fraction))
                     (- Z.of_nat (Decimal.nb_digits fraction))) /\
  (noPoint tail = true ->
   textGives point (signText negative ++ decimalText whole ++ tail)
             (decimal negative (N.of_nat whole) 0) /\
   ((N.of_nat whole < 9007199254740992)%N ->
    textGives point (signText negative ++ decimalText whole ++ tail)
              (Finite negative (N.of_nat whole) 0))).
Proof.
  intros Htail. unfold decimalText. split; [| intros Hpoint].
  - apply textGives_parsed; [| apply signed_truthy, to_uint_digits].
    rewrite parseFloatText_decimal by (assumption || left; apply to_uint_digits).
    rewrite DecimalNat.Unsigned.of_to. reflexivity.
  - assert (Hvalue : parseFloatText
                       (signText negative ++ digitsText (Nat.to_uint whole) ++ tail)
                     = decimal negative (N.of_nat whole) 0).
    { rewrite parseFloatText_whole by (assumption || apply to_uint_digits).
      rewrite DecimalNat.Unsigned.of_to. reflexivity. }
    split; [| intros Hsmall].
    + apply textGives_parsed; [assumption | apply signed_truthy, to_uint_digits].
    + apply textGives_parsed; [| apply signed_truthy, to_uint_digits].
      rewrite Hvalue. apply decimal_integer. assumption.
Qed.

(** X12: when the first track has no [trkseg] entry, [getTrackPointsData]
    rejects with [StructureMismatch], whatever the tracks after it hold:
    no later track stands in for the first. *)
Theorem first_track_without_segment_rejects
        (path : string) (fs : FileSystem) (data : string)
        (result gpx track : JsVal) (tracks : list JsVal) :
  fs path = inr data ->
  parseString data = inr result ->
  entry "gpx" result = Some gpx ->
  children "trk" gpx = track :: tracks ->
  entry "trkseg" track = None ->
  exists e, fst (getTrackPointsData path fs) = Rejected (StructureMismatch e).
Proof.
  intros Hread Hparse Hroot Htracks Hnone.
  rewrite getTrackPointsData_settle, (settle_parsed _ _ _ _ _ Hread Hparse).
  destruct (children_first _ _ _ _ Htracks) as [_ Hfirst].
  destruct (firstOf_absent _ _ Hnone) as [e He].
  exists e. unfold tryTrackPoints.
  rewrite (getProp_named _ _ (entry_isNode _ _ _ Hroot)), Hroot. simpl.
  rewrite firstOf_then, Hfirst. simpl.
  rewrite firstOf_then, He. reflexivity.
Qed.

(** *** showProps *)

Lemma append_assoc (a b c : string) : (a ++ b) ++ c = a ++ b ++ c.
Proof. induction a as [| x a IH]; simpl; [reflexivity | rewrite IH; reflexivity]. Qed.

Lemma existsb_absent (k : string) (seen : list string) :
  ~ In k seen -> existsb (String.eqb k) seen = false.
Proof.
  intros H. destruct (existsb (String.eqb k) seen) eqn:E; [| reflexivity].
  apply existsb_exists in E as (x & Hin & Heq).
  apply String.eqb_eq in Heq. subst x. contradiction.
Qed.

Lemma distinctKeys_all (props : list (string * JsVal)) (seen : list string) :
  NoDup (map fst props) ->
  (forall k, In k (map fst props) -> ~ In k seen) ->
  distinctKeys props seen = map fst props.
Proof.
  revert seen.
  induction props as [| [k v] rest IH]; intros seen Hnodup Hseen;
    [reflexivity |].
  simpl in *. inversion Hnodup as [| ? ? Hfresh Hrest]; subst.
  rewrite (existsb_absent _ _ (Hseen k (or_introl eq_refl))).
  rewrite IH; [reflexivity | assumption |].
  intros k' Hin [<- | Hin']; [contradiction |].
  apply (Hseen k' (or_intror Hin) Hin').
Qed.

Lemma ownKeys_named (props : list (string * JsVal)) :
  NoDup (map fst props) ->
  Forall (fun kv => arrayIndex (fst kv) = None) props ->
  ownKeys props = map fst props.
Proof.
  intros Hnodup Hnamed. unfold ownKeys.
  rewrite (distinctKeys_all _ _ Hnodup) by (intros k _ []).
  clear Hnodup. cbv zeta.
  assert (Hindexed :
            fold_right (fun k acc =>
                          match arrayIndex k with
                          | Some i => insertIndex i k acc
                          | None => acc
                          end) [] (map fst props) = []).
  { induction Hnamed as [| [k v] rest Hk _ IH]; [reflexivity |].
    simpl in *. rewrite Hk. assumption. }
  assert (Hfilter :
            filter (fun k => match arrayIndex k with
                             | Some _ => false
                             | None => true
                             end) (map fst props) = map fst props).
  { clear Hindexed.
    induction Hnamed as [| [k v] rest Hk _ IH]; [reflexivity |].
    simpl in *. rewrite Hk, IH. reflexivity. }
  rewrite Hindexed, Hfilter. reflexivity.
Qed.

Lemma lookup_bound (props : list (string * JsVal)) (k : string) (v : JsVal) :
  NoDup (map fst props) -> In (k, v) props -> lookup k props = Some v.
Proof.
  induction props as [| [k' v'] rest IH]; simpl; intros Hnodup Hin;
    [contradiction |].
  inversion Hnodup as [| ? ? Hfresh Hrest]; subst.
  destruct Hin as [Heq | Hin].
  - injection Heq as -> ->. rewrite String.eqb_refl. reflexivity.
  - destruct (String.eqb k k') eqn:E; [| apply IH; assumption].
    apply String.eqb_eq in E. subst k'. exfalso. apply Hfresh.
    apply (in_map fst _ _ Hin).
Qed.

Lemma forEachKey_lines (props suffix : list (string * JsVal)) (objName : JsVal)
      (result : string) :
  (forall kv, In kv suffix -> lookup (fst kv) props = Some (snd kv)) ->
  forEachKey (JObj props) objName (map Named (map fst suffix)) result
  = match mapM (propertyLine objName) suffix with
    | Normal lines => Normal (result ++ joinLines lines)
    | Throw e => Throw e
    end.
Proof.
  revert result.
  induction suffix as [| [k v] rest IH]; intros result Hbound; simpl.
  - rewrite append_empty. reflexivity.
  - assert (Hline : lineOf (JObj props) objName (Named k)
                    = propertyLine objName (k, v)).
    { unfold lineOf, propertyLine. rewrite getProp_object.
      pose proof (Hbound (k, v) (or_introl eq_refl)) as Hk. simpl in Hk.
      rewrite Hk. reflexivity. }
    rewrite Hline.
    destruct (propertyLine objName (k, v)) as [line |]; simpl; [| reflexivity].
    rewrite IH by (intros kv Hin; apply Hbound; right; assumption).
    destruct (mapM (propertyLine objName) rest) as [lines |]; simpl;
      [| reflexivity].
    rewrite append_assoc. reflexivity.
Qed.

(** X10: for an object whose keys are distinct and none an array index,
    [showProps] goes through the properties in their order and returns
    the lines [objName.key = value] joined, each ended by a line feed; it
    throws what the first conversion that fails throws, and returns the
    empty text for an object without properties, whatever [objName]. *)
Theorem showProps_lists_properties
        (props : list (string * JsVal)) (objName : JsVal) :
  NoDup (map fst props) ->
  Forall (fun kv => arrayIndex (fst kv) = None) props ->
  showProps (JObj props) objName
  = match mapM (propertyLine objName) props with
    | Normal lines => inr (joinLines lines)
    | Throw e => inl (Thrown e)
    end.
Proof.
  intros Hnodup Hnamed. unfold showProps. simpl objectKeys.
  rewrite (ownKeys_named _ Hnodup Hnamed).
  rewrite forEachKey_lines
    by (intros [k v] Hin; apply lookup_bound; assumption).
  destruct (mapM (propertyLine objName) props); reflexivity.
Qed.

(** X11: for an object whose keys are distinct and none an array index,
    whose values are text, [null] or [undefined], and a name that is text,
    [showProps] throws nothing and returns one line per property, in
    order, with [null] and [undefined] spelled out. *)
Theorem showProps_of_primitives
        (props : list (string * JsVal)) (objName : string) :
  NoDup (map fst props) ->
  Forall (fun kv => arrayIndex (fst kv) = None) props ->
  Forall (fun kv => primitiveText (snd kv) <> None) props ->
  showProps (JObj props) (JStr objName)
  = inr (joinLines
           (map (fun kv =>
                   objName ++ "." ++ fst kv ++ " = "
                   ++ match primitiveText (snd kv) with
                      | Some text => text
                      | None => ""
                      end ++ newline) props)).
Proof.
  intros Hnodup Hnamed Hprim.
  unfold showProps. simpl objectKeys.
  rewrite (ownKeys_named _ Hnodup Hnamed).
  rewrite forEachKey_lines
    by (intros [k v] Hin; apply lookup_bound; assumption).
  clear Hnodup Hnamed.
  assert (Hlines : mapM (propertyLine (JStr objName)) props
                   = Normal (map (fun kv =>
                                    objName ++ "." ++ fst kv ++ " = "
                                    ++ match primitiveText (snd kv) with
                                       | Some text => text
                                       | None => ""
                                       end ++ newline) props)).
  { induction Hprim as [| [k v] rest Hv _ IH]; [reflexivity |].
    simpl mapM. rewrite IH. unfold propertyLine. simpl in *.
    destruct v; simpl in *; try reflexivity; contradiction. }
  rewrite Hlines. reflexivity.
Qed.

End GpxParser.

Arguments DocumentUnreadable {FsError XmlError} err.
Arguments MalformedDocument {FsError XmlError} err.
Arguments StructureMismatch {FsError XmlError} error.
Arguments Resolved {FsError XmlError A} value.
Arguments Rejected {FsError XmlError A} reason.
Arguments mkWorld {FsError ParserState} files parsers.
Arguments files {FsError ParserState} w _.
Arguments parsers {FsError ParserState} w.

(** The outcome with the parser objects in view is that of the entry
    point whose parser is a function, the function being what a parser
    just made hands over. *)
Lemma stateful_outcomes_agree
      (FsError XmlError ParserState : Type) (freshParser : ParserState)
      (parseWith : ParserState -> string -> (XmlError + JsVal) * ParserState)
      (toPrimitive : Hint -> JsVal -> Completion string)
      (localeStringOfText : string -> string)
      (path : string) (w : World FsError ParserState) :
  fst (getTrackPointsDataIn FsError XmlError toPrimitive localeStringOfText
                            ParserState freshParser parseWith path w)
  = fst (getTrackPointsData FsError XmlError
                            (fun data => fst (parseWith freshParser data))
                            toPrimitive localeStringOfText path (files w)) /\
  fst (GetMetadataIn FsError XmlError ParserState freshParser parseWith path w)
  = fst (GetMetadata FsError XmlError
                     (fun data => fst (parseWith freshParser data))
                     path (files w)).
Proof.
  split.
  - destruct (call_outcome FsError XmlError ParserState freshParser parseWith
                           (tryTrackPoints toPrimitive localeStringOfText) path w)
      as [Hout _].
    unfold getTrackPointsDataIn. rewrite Hout.
    unfold getTrackPointsData, readFile.
    destruct (files w path) as [err | data]; [reflexivity |].
    destruct (fst (parseWith freshParser data)); reflexivity.
  - destruct (call_outcome FsError XmlError ParserState freshParser parseWith
                           tryMetadata path w) as [Hout _].
    unfold GetMetadataIn. rewrite Hout.
    unfold GetMetadata, readFile.
    destruct (files w path) as [err | data]; [reflexivity |].
    destruct (fst (parseWith freshParser data)); reflexivity.
Qed.

(** ** The sample files *)

Abbreviation trackPointsAt path :=
  (fst (getTrackPointsData string string sampleParse sampleToPrimitive sampleLocale
                           path sampleFiles)) (only parsing).
Abbreviation metadataAt path :=
  (fst (GetMetadata string string sampleParse path sampleFiles)) (only parsing).
Abbreviation recordOf := (trackPointOf sampleToPrimitive sampleLocale) (only parsing).
Abbreviation sampleFieldIs := (fieldIs sampleToPrimitive sampleLocale) (only parsing).

Example parseFloat_45 : parseFloatText "45.0" = Finite false 45 0.
Proof. reflexivity. Qed.

Example parseFloat_lead : parseFloatText "  -7.5e2xyz" = Finite true 750 0.
Proof. reflexivity. Qed.

Example parseFloat_dot : parseFloatText "." = NaN.
Proof. reflexivity. Qed.

Example parseFloat_empty : parseFloatText "" = NaN.
Proof. reflexivity. Qed.

Example parseFloat_word : parseFloatText "undefined" = NaN.
Proof. reflexivity. Qed.

Example parseInt_150 : parseIntText "150" = Finite false 150 0.
Proof. reflexivity. Qed.

Example parseInt_hex : parseIntText "0x1A" = Finite false 26 0.
Proof. reflexivity. Qed.

Example parseInt_frac : parseIntText "72.9" = Finite false 72 0.
Proof. reflexivity. Qed.

Example parseInt_empty : parseIntText "" = NaN.
Proof. reflexivity. Qed.

Example parseFloat_rounds :
  parseFloatText "123.4" = Finite false 4341751515761869 (-45).
Proof. vm_compute. reflexivity. Qed.

Example parseFloat_tenth : parseFloatText "0.1" = Finite false 3602879701896397 (-55).
Proof. vm_compute. reflexivity. Qed.

Example parseFloat_overflows : parseFloatText "1e999" = Infinity false.
Proof. vm_compute. reflexivity. Qed.

Example parseFloat_underflows : parseFloatText "-2.4e-324" = Finite true 0 0.
Proof. vm_compute. reflexivity. Qed.

Example parseFloat_smallest : parseFloatText "2.5e-324" = Finite false 1 (-1074).
Proof. vm_compute. reflexivity. Qed.

Example parseInt_rounds :
  parseIntText "9007199254740993" = Finite false 9007199254740992 0.
Proof. vm_compute. reflexivity. Qed.

Example parseFloat_prefix : parseFloatText "12abc" = Finite false 12 0.
Proof. reflexivity. Qed.

Example track_file_points : trackPointsAt "track" = Resolved sampleRecords.
Proof. reflexivity. Qed.

Example track_file_metadata :
  metadataAt "track" = Resolved (mkMetadata (JStr "Morning run") JNull JNull).
Proof. reflexivity. Qed.

Example trackless_metadata_resolves :
  trackEntry namedDocument = None /\
  metadataAt "named" = Resolved (mkMetadata (JStr "Plan") JNull JNull).
Proof. split; reflexivity. Qed.

Example trackless_metadata_rejects :
  trackEntry foreignDocument = None /\
  metadataAt "foreign"
  = Rejected (StructureMismatch (CannotReadProperty false (Named "metadata"))).
Proof. split; reflexivity. Qed.

Lemma load_and_parse_failures_witness :
  (trackPointsAt "nowhere" = Rejected (DocumentUnreadable "ENOENT") /\
   metadataAt "nowhere" = Rejected (DocumentUnreadable "ENOENT")) /\
  (trackPointsAt "broken" = Rejected (MalformedDocument "Unclosed root tag") /\
   metadataAt "broken" = Rejected (MalformedDocument "Unclosed root tag")).
Proof.
  split.
  - apply (proj1 (load_and_parse_failures_surface
                    string string sampleParse sampleToPrimitive sampleLocale
                    "nowhere" sampleFiles)).
    reflexivity.
  - apply (proj2 (load_and_parse_failures_surface
                    string string sampleParse sampleToPrimitive sampleLocale
                    "broken" sampleFiles) "<gpx><trk>"); reflexivity.
Defined.

Lemma repeated_calls_witness :
  let call :=
    getTrackPointsDataIn string string sampleToPrimitive sampleLocale
                         nat 0 onceParse "track" in
  let first := call (mkWorld sampleFiles []) in
  parsers (snd first) = [1] /\
  fst first = Resolved sampleRecords /\
  fst (call (snd first)) = fst first /\
  fst (call (mkWorld otherFiles [7; 1])) = fst first.
Proof.
  cbv zeta.
  destruct (repeated_calls_agree string string sampleToPrimitive sampleLocale
                                 nat 0 onceParse "track"
                                 (mkWorld sampleFiles []))
    as [(_ & Hsecond & Hother) _].
  split; [reflexivity |]. split; [reflexivity |].
  split; [exact Hsecond |].
  apply Hother. reflexivity.
Defined.

Lemma metadata_without_block_witness :
  entry "metadata" (JStr "") = None /\
  metadataAt "bare" = Resolved (mkMetadata JNull JNull JNull).
Proof.
  split; [reflexivity |].
  apply (metadata_without_block_resolves string string sampleParse "bare"
                                         sampleFiles (textOf "bare") bareDocument
                                         (JStr ""));
    reflexivity.
Defined.

Lemma missing_track_witness :
  trackEntry bareDocument = None /\
  (exists e, trackPointsAt "bare" = Rejected (StructureMismatch e)) /\
  metadataAt "bare" = Resolved (mkMetadata JNull JNull JNull).
Proof.
  split; [reflexivity |].
  destruct (missing_track_rejects string string sampleParse sampleToPrimitive
                                  sampleLocale "bare" sampleFiles (textOf "bare")
                                  bareDocument eq_refl eq_refl eq_refl)
    as (Hpoints & Hmeta & _).
  split; [exact Hpoints | exact Hmeta].
Defined.


Lemma empty_track_point_list_witness :
  trackPointsAt "empty-list" = Resolved [] /\
  exists e, trackPointsAt "empty-segment" = Rejected (StructureMismatch e).
Proof.
  split.
  - apply (proj1 (empty_track_point_list
                    string string sampleParse sampleToPrimitive sampleLocale
                    "empty-list" sampleFiles (textOf "empty-list")
                    emptyListDocument (segmentOf []) eq_refl eq_refl eq_refl)).
    reflexivity.
  - apply (proj2 (empty_track_point_list
                    string string sampleParse sampleToPrimitive sampleLocale
                    "empty-segment" sampleFiles (textOf "empty-segment")
                    emptySegmentDocument (JStr "") eq_refl eq_refl eq_refl)).
    reflexivity.
Defined.

(** The first segment of [emptySegmentDocument] has no track point, and
    [getTrackPointsData] rejects instead of resolving with the empty
    sequence. *)
Lemma empty_segment_rejects :
  firstSegment emptySegmentDocument = Some (JStr "") /\
  children "trkpt" (JStr "") = [] /\
  trackPointsAt "empty-segment"
  = Rejected (StructureMismatch (CannotReadProperty false (Named "map"))) /\
  trackPointsAt "empty-segment" <> Resolved [].
Proof. repeat split. discriminate. Qed.

Lemma coordinates_witness :
  Forall (fun record => lat record <> FNull /\ lon record <> FNull) sampleRecords /\
  coordinateOf sampleToPrimitive "lat" halfPoint = Normal (FNumber NaN) /\
  coordinateOf sampleToPrimitive "lon" barePoint = Normal (FNumber NaN) /\
  (forall record, recordOf halfPoint = Normal record -> lat record = FNumber NaN) /\
  (exists records,
      trackPointsAt "unread" = Resolved records /\
      Forall2 (fun point record =>
                 recordOf point = Normal record /\
                 (coordinateUnreadable "lat" point = true ->
                  lat record = FNumber NaN) /\
                 (coordinateUnreadable "lon" point = true ->
                  lon record = FNumber NaN))
              [halfPoint; barePoint] records) /\
  trackPointsAt "unread"
  = Resolved [mkTrackPoint (FNumber NaN) (FNumber (Finite false 15 (-1)))
                           FNull FNull FNull;
              mkTrackPoint (FNumber (Finite false 46 0)) (FNumber NaN)
                           FNull FNull FNull] /\
  (exists e, recordOf unattributedPoint = Throw e) /\
  (exists e, trackPointsAt "unattributed" = Rejected (StructureMismatch e)).
Proof.
  destruct (coordinates_never_absent string string sampleParse sampleToPrimitive
                                     sampleLocale "track" sampleFiles)
    as (Hrecords & Hnan & _).
  destruct (coordinates_never_absent string string sampleParse sampleToPrimitive
                                     sampleLocale "unread" sampleFiles)
    as (_ & _ & Hplaced & _).
  destruct (coordinates_never_absent string string sampleParse sampleToPrimitive
                                     sampleLocale "unattributed" sampleFiles)
    as (_ & _ & _ & Hthrow).
  destruct (Hthrow unattributedPoint (textOf "unattributed") unattributedDocument
                   [samplePoint; unattributedPoint] eq_refl)
    as [Hpoint Hall].
  split; [apply Hrecords; reflexivity |].
  split; [| split; [| split; [| split; [| split; [| split]]]]].
  - apply (Hnan halfPoint (JObj [("lon", JStr "7.5")]) "lat");
      [reflexivity | reflexivity | left; reflexivity].
  - apply (Hnan barePoint (JObj [("lat", JStr "46.0"); ("lon", JStr "north")]) "lon");
      [reflexivity | reflexivity |].
    right. exists "north". split; reflexivity.
  - intros record Hrecord.
    apply (proj2 (Hnan halfPoint (JObj [("lon", JStr "7.5")]) "lat" eq_refl eq_refl
                       (or_introl eq_refl)) record Hrecord).
    reflexivity.
  - apply (Hplaced (textOf "unread") unreadDocument [halfPoint; barePoint]);
      reflexivity.
  - reflexivity.
  - exact Hpoint.
  - apply Hall; [reflexivity | reflexivity | reflexivity | right; left; reflexivity].
Defined.

(** [unattributedPoint] has no [lat] attribute, and reading it throws: no
    [NaN] is put in a record and the extraction rejects. *)
Lemma unattributed_point_throws :
  entry "$" unattributedPoint = None /\
  coordinateOf sampleToPrimitive "lat" unattributedPoint
  = Throw (CannotReadProperty false (Named "lat")) /\
  coordinateOf sampleToPrimitive "lat" unattributedPoint <> Normal (FNumber NaN) /\
  trackPointsAt "unattributed"
  = Rejected (StructureMismatch (CannotReadProperty false (Named "lat"))).
Proof. repeat split. discriminate. Qed.

Lemma heart_rate_witness :
  sampleFieldIs (heartRateOf sampleToPrimitive) heartRate barePoint FNull /\
  sampleFieldIs (heartRateOf sampleToPrimitive) heartRate samplePoint
                (FNumber (Finite false 150 0)) /\
  (exists record,
      recordOf barePoint = Normal record /\ heartRate record = FNull) /\
  (exists record,
      recordOf samplePoint = Normal record /\
      heartRate record = FNumber (Finite false 150 0)) /\
  missesHeartRate powerPoint = true /\
  (exists e, heartRateOf sampleToPrimitive powerPoint = Throw e) /\
  (exists e, trackPointsAt "power" = Rejected (StructureMismatch e)).
Proof.
  assert (Hbare : sampleFieldIs (heartRateOf sampleToPrimitive) heartRate
                                barePoint FNull).
  { apply (proj1 (heart_rate_cases string string sampleParse sampleToPrimitive
                                   sampleLocale barePoint)); reflexivity. }
  assert (Hsample : sampleFieldIs (heartRateOf sampleToPrimitive) heartRate
                                  samplePoint (FNumber (Finite false 150 0))).
  { apply (proj1 (proj2 (heart_rate_cases string string sampleParse
                                          sampleToPrimitive sampleLocale
                                          samplePoint)) "150");
      [reflexivity | discriminate]. }
  split; [exact Hbare |]. split; [exact Hsample |].
  split; [apply (proj2 (proj2 Hbare)); reflexivity |].
  split; [apply (proj2 (proj2 Hsample)); reflexivity |].
  split; [reflexivity |].
  destruct (proj2 (proj2 (heart_rate_cases string string sampleParse
                                           sampleToPrimitive sampleLocale
                                           powerPoint)) eq_refl)
    as [Hblock Hall].
  split; [exact Hblock |].
  apply (Hall "power" sampleFiles (textOf "power") powerDocument
              [samplePoint; powerPoint; barePoint]);
    [reflexivity | reflexivity | reflexivity | right; left; reflexivity].
Defined.

(** [emptyTextPoint] has the nesting and a heart-rate element, and its
    [heartRate] is [null], not [parseInt] of the element's text. *)
Lemma empty_heart_rate_is_null :
  heartRateElement emptyTextPoint = Some (JStr "") /\
  heartRateOf sampleToPrimitive emptyTextPoint = Normal FNull /\
  heartRateOf sampleToPrimitive emptyTextPoint
  <> Normal (FNumber (parseIntText "")) /\
  trackPointsAt "empty-text"
  = Resolved [mkTrackPoint (FNumber (Finite false 45 0))
                           (FNumber (Finite false 15 (-1))) FNull FNull FNull].
Proof. repeat split. discriminate. Qed.


Lemma empty_text_witness :
  sampleFieldIs (elevationOf sampleToPrimitive) elevation emptyTextPoint FNull /\
  recordOf emptyTextPoint = recordOf (JObj (remove "ele" emptyTextProps)) /\
  sampleFieldIs (timestampOf sampleToPrimitive sampleLocale) timestamp
                emptyTextPoint FNull /\
  recordOf emptyTextPoint = recordOf (JObj (remove "time" emptyTextProps)) /\
  sampleFieldIs (heartRateOf sampleToPrimitive) heartRate emptyTextPoint FNull /\
  (exists record,
      recordOf emptyTextPoint = Normal record /\ elevation record = FNull) /\
  (exists record,
      recordOf emptyTextPoint = Normal record /\ timestamp record = FNull) /\
  (exists record,
      recordOf emptyTextPoint = Normal record /\ heartRate record = FNull).
Proof.
  destruct (empty_text_is_absent sampleToPrimitive sampleLocale emptyTextProps)
    as (Hele & Htime & Hrate).
  destruct (Hele [] eq_refl) as [He Hsame].
  destruct (Htime [] eq_refl) as [Ht Hsame'].
  pose proof (Hrate eq_refl) as Hr.
  split; [exact He |]. split; [exact Hsame |].
  split; [exact Ht |]. split; [exact Hsame' |].
  split; [exact Hr |].
  split; [apply (proj2 (proj2 He)); reflexivity |].
  split; [apply (proj2 (proj2 Ht)); reflexivity |].
  apply (proj2 (proj2 Hr)); reflexivity.
Defined.

(** ** Further sample files *)

Abbreviation extraPointsAt path :=
  (fst (getTrackPointsData string string extraParse sampleToPrimitive sampleLocale
                           path extraFiles)) (only parsing).
Abbreviation extraMetadataAt path :=
  (fst (GetMetadata string string extraParse path extraFiles)) (only parsing).
Abbreviation sampleShowProps := (showProps sampleToPrimitive) (only parsing).

Example showProps_index_keys_first :
  sampleShowProps (JObj [("b", JStr "x"); ("10", JStr "y"); ("2", JStr "z")])
                  (JStr "o")
  = inr (joinLines ["o.2 = z" ++ newline; "o.10 = y" ++ newline;
                    "o.b = x" ++ newline]).
Proof. reflexivity. Qed.

Example showProps_of_text :
  sampleShowProps (JStr "ab") (JStr "s")
  = inr (joinLines ["s.0 = a" ++ newline; "s.1 = b" ++ newline]).
Proof. reflexivity. Qed.

Example showProps_of_null :
  sampleShowProps JNull (JStr "o") = inl CannotConvertToObject.
Proof. reflexivity. Qed.

Lemma resolves_iff_witness :
  extraPointsAt "track" = Resolved sampleRecords <->
  Forall2 (fun point record => recordOf point = Normal record)
          [samplePoint; barePoint] sampleRecords.
Proof.
  apply (resolves_iff_every_point_completes
           string string extraParse sampleToPrimitive sampleLocale
           "track" extraFiles (textOf "track") sampleDocument);
    reflexivity.
Defined.

Lemma first_throwing_point_witness :
  extraPointsAt "mixed"
  = Rejected (StructureMismatch (CannotReadProperty false (Indexed 0))).
Proof.
  apply (first_throwing_point_decides
           string string extraParse sampleToPrimitive sampleLocale
           "mixed" extraFiles (textOf "mixed") mixedDocument
           [samplePoint] [unattributedPoint] powerPoint);
    try reflexivity.
  constructor; [eexists; reflexivity | constructor].
Defined.

Lemma only_first_segment_witness :
  extraPointsAt "two-tracks" = extraPointsAt "track".
Proof.
  apply (only_first_segment_is_read
           string string extraParse sampleToPrimitive sampleLocale
           "two-tracks" "track" extraFiles (textOf "two-tracks") (textOf "track")
           twoTrackDocument sampleDocument (segmentOf [samplePoint; barePoint]));
    reflexivity.
Defined.

Lemma callback_reads_four_entries_witness :
  recordOf (JObj annotatedProps) = recordOf (JObj samplePointProps).
Proof.
  apply (callback_reads_four_entries sampleToPrimitive sampleLocale);
    reflexivity.
Defined.

Lemma metadata_first_children_witness :
  extraMetadataAt "rich"
  = Resolved (mkMetadata (JStr "Morning run") (JStr "") authorNode).
Proof.
  apply (metadata_takes_first_children
           string string extraParse "rich" extraFiles (textOf "rich")
           richDocument
           (JObj [("metadata", JArr [richMetadata; JStr ""])])
           richMetadata [JStr ""]);
    reflexivity.
Defined.

Lemma missing_root_witness :
  (extraPointsAt "foreign"
   = Rejected (StructureMismatch (CannotReadProperty false (Named "trk"))) /\
   extraMetadataAt "foreign"
   = Rejected (StructureMismatch (CannotReadProperty false (Named "metadata")))) /\
  (extraPointsAt "blank"
   = Rejected (StructureMismatch (CannotReadProperty true (Named "gpx"))) /\
   extraMetadataAt "blank"
   = Rejected (StructureMismatch (CannotReadProperty true (Named "gpx")))).
Proof.
  split.
  - apply (proj1 (missing_root_rejects_both
                    string string extraParse sampleToPrimitive sampleLocale
                    "foreign" extraFiles (textOf "foreign") foreignDocument
                    eq_refl eq_refl)); reflexivity.
  - apply (proj2 (missing_root_rejects_both
                    string string extraParse sampleToPrimitive sampleLocale
                    "blank" extraFiles "" JNull eq_refl eq_refl)); reflexivity.
Defined.

Lemma unreadable_numbers_witness :
  sampleFieldIs (elevationOf sampleToPrimitive) elevation wordyPoint (FNumber NaN) /\
  sampleFieldIs (heartRateOf sampleToPrimitive) heartRate wordyPoint (FNumber NaN) /\
  exists record,
    recordOf wordyPoint = Normal record /\
    elevation record = FNumber NaN /\ heartRate record = FNumber NaN.
Proof.
  destruct (unreadable_numbers_are_NaN sampleToPrimitive sampleLocale wordyPoint)
    as [Hele Hrate].
  assert (He : sampleFieldIs (elevationOf sampleToPrimitive) elevation wordyPoint
                             (FNumber NaN)).
  { apply (Hele "n/a" []); [reflexivity | discriminate | reflexivity]. }
  assert (Hr : sampleFieldIs (heartRateOf sampleToPrimitive) heartRate wordyPoint
                             (FNumber NaN)).
  { apply (Hrate "resting"); [reflexivity | discriminate | reflexivity]. }
  split; [exact He |]. split; [exact Hr |].
  destruct (proj2 (proj2 He) eq_refl) as (record & Hrecord & Helevation).
  exists record. split; [exact Hrecord |]. split; [exact Helevation |].
  exact (proj1 (proj2 Hr) record Hrecord).
Defined.

Lemma heart_rate_numeral_witness :
  sampleFieldIs (heartRateOf sampleToPrimitive) heartRate southPoint
                (FNumber (Finite false 72 0)) /\
  exists record,
    recordOf southPoint = Normal record /\
    heartRate record = FNumber (Finite false 72 0).
Proof.
  assert (H : sampleFieldIs (heartRateOf sampleToPrimitive) heartRate southPoint
                            (FNumber (Finite false 72 0))).
  { apply (proj2 (heart_rate_reads_numerals sampleToPrimitive sampleLocale
                                            southPoint 72 ".9"
                                            eq_refl eq_refl
                                            (fun H => match H with end)));
      reflexivity. }
  split; [exact H |]. apply (proj2 (proj2 H)). reflexivity.
Defined.

Lemma decimal_numerals_witness :
  coordinateOf sampleToPrimitive "lat" southPoint
  = Normal (FNumber (decimal true 3386 (-2))) /\
  sampleFieldIs (elevationOf sampleToPrimitive) elevation southPoint
                (FNumber (Finite false 1200 0)) /\
  recordOf southPoint
  = Normal (mkTrackPoint (FNumber (decimal true 3386 (-2)))
                         (FNumber (decimal false 1512 (-1)))
                         (FNumber (Finite false 72 0)) FNull
                         (FNumber (Finite false 1200 0))).
Proof.
  split; [| split; [| reflexivity]].
  - apply (proj1 (proj1 (decimal_numerals_are_rounded
                           sampleToPrimitive sampleLocale southPoint true 33
                           (Decimal.D8 (Decimal.D6 Decimal.Nil)) "" eq_refl))
                 (JObj [("lat", JStr "-33.86"); ("lon", JStr "151.2")]) "lat");
      reflexivity.
  - apply (proj2 (proj2 (proj2 (decimal_numerals_are_rounded
                                  sampleToPrimitive sampleLocale southPoint false
                                  1200 Decimal.Nil "m" eq_refl) eq_refl)
                        eq_refl) []).
    reflexivity.
Defined.

Lemma showProps_lists_witness :
  sampleShowProps (JObj blockProps) (JStr "metadata")
  = inr (joinLines ["metadata.name = Morning run" ++ newline;
                    "metadata.desc = null" ++ newline;
                    "metadata.author = [object Object]" ++ newline]).
Proof.
  apply (showProps_lists_properties sampleToPrimitive blockProps (JStr "metadata")).
  - repeat (constructor; [simpl; intuition discriminate |]). constructor.
  - repeat constructor.
Defined.

Lemma showProps_primitives_witness :
  sampleShowProps (JObj plainProps) (JStr "metadata")
  = inr (joinLines ["metadata.name = Morning run" ++ newline;
                    "metadata.desc = null" ++ newline;
                    "metadata.link = undefined" ++ newline]).
Proof.
  apply (showProps_of_primitives sampleToPrimitive plainProps "metadata").
  - repeat (constructor; [simpl; intuition discriminate |]). constructor.
  - repeat constructor.
  - repeat (constructor; [discriminate |]). constructor.
Defined.

Lemma first_track_without_segment_witness :
  entry "trkseg" segmentlessTrack = None /\
  exists e, extraPointsAt "segmentless" = Rejected (StructureMismatch e).
Proof.
  split; [reflexivity |].
  apply (first_track_without_segment_rejects
           string string extraParse sampleToPrimitive sampleLocale
           "segmentless" extraFiles (textOf "segmentless") segmentlessDocument
           (JObj [("trk",
                   JArr [segmentlessTrack;
                         JObj [("trkseg", JArr [segmentOf [samplePoint]])]])])
           segmentlessTrack
           [JObj [("trkseg", JArr [segmentOf [samplePoint]])]]);
    reflexivity.
Defined.
